(** * Users and Tasks REST handlers: a shallow embedding

    The development follows [src/routes/users.js] and [src/routes/tasks.js].
    Every route handler is a function from the state of the document store
    to a response and a new state.  A store call either returns or throws a
    JavaScript error; [try]/[catch] blocks are kept where the source has
    them.  Each store call is appended to a log, so that statements about
    which calls a handler issues can be written down.

    Conventions of the model.
    - Request bodies are typed: a field is absent or holds a value of the
      type its schema path has (a JSON body whose fields need no casting).
    - Query-string parameters are absent or strings.
    - Identifiers are opaque texts; a document is named by the exact text of
      its identifier, and the store rejects texts that are not 24
      hexadecimal digits with a CastError.
    - JSON texts, filters, sort orders and projections are those of the host
      ([JSON.parse]) and of the store's query language; they are taken as an
      interface ([Host]) that the handlers are generic in. *)

From Stdlib Require Import ZArith String Ascii List Bool Lia.
From stdpp Require Import base option list gmap strings fin_maps.

Local Open Scope string_scope.
Local Open Scope list_scope.
Local Open Scope Z_scope.

(* ===================================================================== *)
(** * JavaScript values and errors *)
(* ===================================================================== *)

(** Truthiness, per type of value the handlers test. *)
Definition truthy_string (s : string) : bool :=
  match s with EmptyString => false | String _ _ => true end.

Definition truthy_number (n : option Z) : bool :=
  match n with Some z => negb (z =? 0) | None => false end.

(** [req.query.x], [req.body.x]: [None] is [undefined]. *)
Definition truthy_param (p : option string) : bool :=
  match p with Some s => truthy_string s | None => false end.

Definition truthy_date (p : option Z) : bool := truthy_number p.

Definition truthy_flag (p : option bool) : bool :=
  match p with Some b => b | None => false end.

(** An array is truthy whatever its length. *)
Definition truthy_array {A} (p : option (list A)) : bool :=
  match p with Some _ => true | None => false end.

(** The fields of an error object that the [catch] blocks read. *)
Record JsError := mkError
  { err_name : string; err_code : option Z; err_message : string }.

Definition CastError (value : string) : JsError :=
  mkError "CastError" None ("Cast to ObjectId failed for value " +:+ value).

Definition ValidationError (path : string) : JsError :=
  mkError "ValidationError" None ("Path `" +:+ path +:+ "` is required.").

Definition DuplicateKeyError : JsError :=
  mkError "MongoServerError" (Some 11000) "E11000 duplicate key error".

Definition SkipError : JsError :=
  mkError "MongoServerError" (Some 2) "Skip value must be non-negative".

Definition TypeError : JsError :=
  mkError "TypeError" None "Cannot convert undefined or null to object".

(** Result of a call: a value, or a thrown error. *)
Inductive Outcome (A : Type) : Type :=
| Ret (a : A)
| Throw (e : JsError).
Arguments Ret {A} a.
Arguments Throw {A} e.

(* ===================================================================== *)
(** * parseInt *)
(* ===================================================================== *)

Definition is_js_space (a : ascii) : bool :=
  let n := N_of_ascii a in
  ((9 <=? n) && (n <=? 13) || (n =? 32))%N.

Fixpoint skip_spaces (s : string) : string :=
  match s with
  | String a r => if is_js_space a then skip_spaces r else s
  | EmptyString => s
  end.

Definition digit_value (a : ascii) : option N :=
  let n := N_of_ascii a in
  if ((48 <=? n) && (n <=? 57))%N then Some (n - 48)%N
  else if ((97 <=? n) && (n <=? 122))%N then Some (n - 87)%N
  else if ((65 <=? n) && (n <=? 90))%N then Some (n - 55)%N
  else None.

(** Longest prefix of digits of the radix; [None] when there is none. *)
Fixpoint parse_digits (radix : N) (s : string) (acc : option N) : option N :=
  match s with
  | String a r =>
      match digit_value a with
      | Some d =>
          if (d <? radix)%N
          then parse_digits radix r
                 (Some (match acc with Some v => v * radix + d | None => d end)%N)
          else acc
      | None => acc
      end
  | EmptyString => acc
  end.

(** [parseInt(s)] with no radix argument; [None] is [NaN]. *)
Definition parseInt (s : string) : option Z :=
  let s1 := skip_spaces s in
  let '(neg, s2) :=
    match s1 with
    | String "-" r => (true, r)
    | String "+" r => (false, r)
    | _ => (false, s1)
    end in
  let '(radix, s3) :=
    match s2 with
    | String "0" (String "x" r) => (16%N, r)
    | String "0" (String "X" r) => (16%N, r)
    | _ => (10%N, s2)
    end in
  match parse_digits radix s3 None with
  | Some n => Some (if neg : bool then - Z.of_N n else Z.of_N n)
  | None => None
  end.

(* ===================================================================== *)
(** * Identifiers *)
(* ===================================================================== *)

Definition is_hex_digit (a : ascii) : bool :=
  match digit_value a with Some d => (d <? 16)%N | None => false end.

Fixpoint all_hex (s : string) : bool :=
  match s with
  | String a r => is_hex_digit a && all_hex r
  | EmptyString => true
  end.

(** The text of a store identifier: 24 hexadecimal digits. *)
Definition isObjectId (s : string) : bool :=
  (String.length s =? 24)%nat && all_hex s.

Definition hex_char (d : N) : ascii :=
  if (d <? 10)%N then ascii_of_N (48 + d) else ascii_of_N (87 + d).

Fixpoint hex_digits (k : nat) (n : N) (acc : string) : string :=
  match k with
  | O => acc
  | S k' => hex_digits k' (n / 16)%N (String (hex_char (n mod 16)%N) acc)
  end.

(** The identifier the driver generates from its counter. *)
Definition oid_of_nat (n : nat) : string := hex_digits 24 (N.of_nat n) EmptyString.

(* ===================================================================== *)
(** * Documents and request bodies *)
(* ===================================================================== *)

(** A document is its identifier together with its fields; the store keeps
    the fields under the identifier. *)
Definition Doc (A : Type) : Type := (string * A)%type.
Definition _id {A} (d : Doc A) : string := fst d.
Definition fields {A} (d : Doc A) : A := snd d.

(** Modelled from the spec: the schema of [models/user.js], which is not
    among the sources.  Data model: [name] (required, non-empty), [email]
    (required, unique), [pendingTasks] (sequence of Task identifiers, kept
    as texts), [dateCreated] (set at creation). *)
Record User := mkUser
  { u_name : string;
    u_email : string;
    u_pendingTasks : list string;
    u_dateCreated : Z }.

(** Modelled from the spec: the schema of [models/task.js], which is not
    among the sources.  Data model: [name] (required, non-empty),
    [deadline] (required timestamp), [description], [completed] (default
    false), [assignedUser] (default empty), [assignedUserName] (default
    "unassigned"). *)
Record Task := mkTask
  { t_name : string;
    t_deadline : Z;
    t_description : string;
    t_completed : bool;
    t_assignedUser : string;
    t_assignedUserName : string }.

(** [req.body] of the User routes. *)
Record UserBody := mkUserBody
  { ub_name : option string;
    ub_email : option string;
    ub_pendingTasks : option (list string) }.

(** [req.body] of the Task routes; also the shape of a [$set] document. *)
Record TaskBody := mkTaskBody
  { tb_name : option string;
    tb_deadline : option Z;
    tb_description : option string;
    tb_completed : option bool;
    tb_assignedUser : option string;
    tb_assignedUserName : option string }.

(** The update documents the handlers hand to [User.findByIdAndUpdate]. *)
Inductive UserUpdate :=
| USet (b : UserBody)          (* the request body, used as update *)
| UPush (taskId : string)      (* { $push: { pendingTasks: taskId } } *)
| UPull (taskId : string).     (* { $pull: { pendingTasks: taskId } } *)

(** The options object of [findByIdAndUpdate]. *)
Record UpdateOptions := mkOptions { opt_new : bool; opt_runValidators : bool }.

Definition no_options : UpdateOptions := mkOptions false false.
Definition new_and_validate : UpdateOptions := mkOptions true true.

Definition or_else {A} (o : option A) (d : A) : A :=
  match o with Some a => a | None => d end.

(** Fields present in the update replace the stored ones. *)
Definition set_user (b : UserBody) (u : User) : User :=
  mkUser
    (or_else (ub_name b) (u_name u))
    (or_else (ub_email b) (u_email u))
    (or_else (ub_pendingTasks b) (u_pendingTasks u))
    (u_dateCreated u).

Definition set_task (b : TaskBody) (t : Task) : Task :=
  mkTask
    (or_else (tb_name b) (t_name t))
    (or_else (tb_deadline b) (t_deadline t))
    (or_else (tb_description b) (t_description t))
    (or_else (tb_completed b) (t_completed t))
    (or_else (tb_assignedUser b) (t_assignedUser t))
    (or_else (tb_assignedUserName b) (t_assignedUserName t)).

Definition with_pendingTasks (l : list string) (u : User) : User :=
  mkUser (u_name u) (u_email u) l (u_dateCreated u).

(** [$push] appends; [$pull] removes every element equal to the value. *)
Definition push_pending (taskId : string) (u : User) : User :=
  with_pendingTasks (u_pendingTasks u ++ [taskId]) u.

Definition pull_pending (taskId : string) (u : User) : User :=
  with_pendingTasks
    (List.filter (fun x => negb (String.eqb x taskId)) (u_pendingTasks u)) u.

Definition apply_user_update (upd : UserUpdate) (u : User) : User :=
  match upd with
  | USet b => set_user b u
  | UPush t => push_pending t u
  | UPull t => pull_pending t u
  end.

(** What an update does to the collection: the User named, when there is
    one, is updated; a text that is no identifier names no User. *)
Definition write_user (uid : string) (upd : UserUpdate) (m : gmap string User)
  : gmap string User :=
  if isObjectId uid then alter (apply_user_update upd) uid m else m.

(** Validators run on the paths an update sets ([runValidators]). *)
Definition validate_user_body (b : UserBody) : option JsError :=
  match ub_name b, ub_email b with
  | Some EmptyString, _ => Some (ValidationError "name")
  | _, Some EmptyString => Some (ValidationError "email")
  | _, _ => None
  end.

Definition validate_task_body (b : TaskBody) : option JsError :=
  match tb_name b with
  | Some EmptyString => Some (ValidationError "name")
  | _ => None
  end.

Definition validate_user_update (upd : UserUpdate) : option JsError :=
  match upd with USet b => validate_user_body b | _ => None end.

(** Validators run on a whole document ([save]). *)
Definition validate_user (u : User) : option JsError :=
  validate_user_body (mkUserBody (Some (u_name u)) (Some (u_email u)) None).

Definition validate_task (t : Task) : option JsError :=
  validate_task_body (mkTaskBody (Some (t_name t)) None None None None None).

(** The [$set] of the cascade of User deletion. *)
Definition unassign : TaskBody :=
  mkTaskBody None None None None (Some EmptyString) (Some "unassigned").

(** The unique index on [email]: is the address held by a document other
    than [self]? *)
Definition email_taken (email self : string) (m : gmap string User) : bool :=
  existsb (fun d : Doc User =>
             String.eqb (u_email (fields d)) email && negb (String.eqb (_id d) self))
          (map_to_list m).

(** Skip and limit of a cursor.  The store refuses a negative skip; a
    limit of zero is no limit and a negative one counts as its absolute
    value. *)
Definition apply_skip {A} (n : option Z) (l : list A) : Outcome (list A) :=
  match n with
  | None => Ret l
  | Some z => if z <? 0 then Throw SkipError else Ret (drop (Z.to_nat z) l)
  end.

Definition apply_limit {A} (n : option Z) (l : list A) : list A :=
  match n with
  | None => l
  | Some z => if z =? 0 then l else take (Z.to_nat (Z.abs z)) l
  end.

(* ===================================================================== *)
(** * The host: JSON and the query language of the store *)
(* ===================================================================== *)

Class Host := mkHost
  { (** values [JSON.parse] returns *)
    Json : Type;
    (** [JSON.parse]; [None] when it throws a SyntaxError *)
    JSON_parse : string -> option Json;
    (** the object literal [{}] *)
    empty_object : Json;
    (** truthiness of a parsed value *)
    truthy_json : Json -> bool;
    (** [Object.keys(v).length]; [None] when [Object.keys] throws *)
    keys_length : Json -> option nat;
    (** documents a filter selects, or the error casting the filter throws *)
    match_users : Json -> gmap string User -> Outcome (list (Doc User));
    match_tasks : Json -> gmap string Task -> Outcome (list (Doc Task));
    (** a sort order applied, or the error it throws *)
    sort_users : Json -> list (Doc User) -> Outcome (list (Doc User));
    sort_tasks : Json -> list (Doc Task) -> Outcome (list (Doc Task));
    (** [{}] is truthy and has no keys *)
    truthy_empty_object : truthy_json empty_object = true;
    keys_empty_object : keys_length empty_object = Some 0%nat }.

(* ===================================================================== *)
(** * The store and the calls the handlers make *)
(* ===================================================================== *)

Section Store.
Context {H : Host}.

(** A query under construction: [Model.find(where)] followed by the
    [sort], [select], [skip] and [limit] calls that were made. *)
Record Query := mkQuery
  { q_where : Json;
    q_sort : option Json;
    q_select : option Json;
    q_skip : option Z;
    q_limit : option Z }.

(** Calls to the store, as issued. *)
Inductive StoreOp :=
| OpUserSave (d : Doc User)
| OpUserFind (q : Query)
| OpUserCount (cond : Json)
| OpUserFindById (id : string) (select : option Json)
| OpUserFindByIdAndUpdate (id : string) (upd : UserUpdate)
| OpUserFindByIdAndDelete (id : string)
| OpTaskSave (d : Doc Task)
| OpTaskFind (q : Query)
| OpTaskCount (cond : Json)
| OpTaskFindById (id : string) (select : option Json)
| OpTaskFindByIdAndUpdate (id : string) (upd : TaskBody)
| OpTaskFindByIdAndDelete (id : string)
| OpTaskUpdateMany (ids : list string) (set : TaskBody).

(** The two collections, the log of calls, the counter of the identifier
    generator and the clock. *)
Record World := mkWorld
  { users : gmap string User;
    tasks : gmap string Task;
    oplog : list StoreOp;
    next_oid : nat;
    clock : Z }.

Definition with_users (m : gmap string User) (w : World) : World :=
  mkWorld m (tasks w) (oplog w) (next_oid w) (clock w).

Definition with_tasks (m : gmap string Task) (w : World) : World :=
  mkWorld (users w) m (oplog w) (next_oid w) (clock w).

(** Computations that call the store: state passing with exceptions. *)
Definition Js (A : Type) : Type := World -> Outcome A * World.

Definition ret {A} (a : A) : Js A := fun w => (Ret a, w).

Definition throw {A} (e : JsError) : Js A := fun w => (Throw e, w).

Definition bind {A B} (m : Js A) (k : A -> Js B) : Js B :=
  fun w =>
    match m w with
    | (Ret a, w') => k a w'
    | (Throw e, w') => (Throw e, w')
    end.

Definition try_catch {A} (m : Js A) (handler : JsError -> Js A) : Js A :=
  fun w =>
    match m w with
    | (Ret a, w') => (Ret a, w')
    | (Throw e, w') => handler e w'
    end.

Definition lift {A} (o : Outcome A) : Js A := fun w => (o, w).

Definition get_world : Js World := fun w => (Ret w, w).

Definition logged (op : StoreOp) (w : World) : World :=
  mkWorld (users w) (tasks w) (oplog w ++ [op]) (next_oid w) (clock w).

Definition issue (op : StoreOp) : Js unit := fun w => (Ret tt, logged op w).

Definition put_users (m : gmap string User) : Js unit :=
  fun w => (Ret tt, with_users m w).

Definition put_tasks (m : gmap string Task) : Js unit :=
  fun w => (Ret tt, with_tasks m w).

(** The identifier generator of the driver. *)
Definition fresh_oid : Js string :=
  fun w => (Ret (oid_of_nat (next_oid w)),
            mkWorld (users w) (tasks w) (oplog w) (S (next_oid w)) (clock w)).

Definition raise_if (e : option JsError) : Js unit :=
  match e with Some err => throw err | None => ret tt end.

(** Casting the text of an identifier. *)
Definition cast_id (id : string) : Js unit :=
  if isObjectId id then ret tt else throw (CastError id).

(** The first text of a list that is no identifier. *)
Fixpoint first_malformed (ids : list string) : option string :=
  match ids with
  | [] => None
  | id :: rest => if isObjectId id then first_malformed rest else Some id
  end.

Fixpoint cast_ids (ids : list string) : Js unit :=
  match ids with
  | [] => ret tt
  | id :: rest => bind (cast_id id) (fun _ => cast_ids rest)
  end.

(** [await m;] with the value dropped. *)
Definition await {A} (m : Js A) : Js unit := bind m (fun _ => ret tt).

(** The notations [x ← m; k] and [m;; k] are those of the monad. *)
#[global] Instance Js_ret : MRet Js := @ret.
#[global] Instance Js_bind : MBind Js := fun A B k m => bind m k.

End Store.

Section Models.
Context {H : Host}.

(** [new User()]: a fresh identifier and the schema defaults. *)
Definition User_new : Js (Doc User) :=
  id ← fresh_oid;
  w ← get_world;
  ret (id, mkUser EmptyString EmptyString [] (clock w)).

(** [new Task()]. *)
Definition default_task : Task :=
  mkTask EmptyString 0 EmptyString false EmptyString "unassigned".

Definition Task_new : Js (Doc Task) :=
  id ← fresh_oid;
  ret (id, default_task).

(** [doc.save()] of a new document: validation, then insertion under the
    unique indexes. *)
Definition User_save (d : Doc User) : Js (Doc User) :=
  issue (OpUserSave d);;
  raise_if (validate_user (fields d));;
  w ← get_world;
  if bool_decide (is_Some (users w !! _id d)) || email_taken (u_email (fields d)) (_id d) (users w)
  then throw DuplicateKeyError
  else put_users (<[_id d := fields d]> (users w));; ret d.

Definition Task_save (d : Doc Task) : Js (Doc Task) :=
  issue (OpTaskSave d);;
  raise_if (validate_task (fields d));;
  w ← get_world;
  if bool_decide (is_Some (tasks w !! _id d))
  then throw DuplicateKeyError
  else put_tasks (<[_id d := fields d]> (tasks w));; ret d.

(** [Model.findById(id)], with the projection when one was added. *)
Definition User_findById (id : string) (select : option Json) : Js (option (Doc User)) :=
  issue (OpUserFindById id select);;
  cast_id id;;
  w ← get_world;
  ret (match users w !! id with Some u => Some (id, u) | None => None end).

Definition Task_findById (id : string) (select : option Json) : Js (option (Doc Task)) :=
  issue (OpTaskFindById id select);;
  cast_id id;;
  w ← get_world;
  ret (match tasks w !! id with Some t => Some (id, t) | None => None end).

(** [User.findByIdAndUpdate(id, update, options)]: the identifier is
    cast, the validators run when asked for, and the document, when there
    is one, is replaced; the result is the document before or after the
    update, or [null]. *)
Definition User_findByIdAndUpdate (id : string) (upd : UserUpdate)
    (opts : UpdateOptions) : Js (option (Doc User)) :=
  issue (OpUserFindByIdAndUpdate id upd);;
  cast_id id;;
  (if opt_runValidators opts then raise_if (validate_user_update upd) else ret tt);;
  w ← get_world;
  match users w !! id with
  | None => ret None
  | Some u =>
      let u' := apply_user_update upd u in
      if negb (String.eqb (u_email u') (u_email u)) && email_taken (u_email u') id (users w)
      then throw DuplicateKeyError
      else put_users (<[id := u']> (users w));;
           ret (Some (id, if opt_new opts then u' else u))
  end.

Definition Task_findByIdAndUpdate (id : string) (upd : TaskBody)
    (opts : UpdateOptions) : Js (option (Doc Task)) :=
  issue (OpTaskFindByIdAndUpdate id upd);;
  cast_id id;;
  (if opt_runValidators opts then raise_if (validate_task_body upd) else ret tt);;
  w ← get_world;
  match tasks w !! id with
  | None => ret None
  | Some t =>
      let t' := set_task upd t in
      put_tasks (<[id := t']> (tasks w));;
      ret (Some (id, if opt_new opts then t' else t))
  end.

(** [Model.findByIdAndDelete(id)]: the removed document, or [null]. *)
Definition User_findByIdAndDelete (id : string) : Js (option (Doc User)) :=
  issue (OpUserFindByIdAndDelete id);;
  cast_id id;;
  w ← get_world;
  put_users (delete id (users w));;
  ret (match users w !! id with Some u => Some (id, u) | None => None end).

Definition Task_findByIdAndDelete (id : string) : Js (option (Doc Task)) :=
  issue (OpTaskFindByIdAndDelete id);;
  cast_id id;;
  w ← get_world;
  put_tasks (delete id (tasks w));;
  ret (match tasks w !! id with Some t => Some (id, t) | None => None end).

(** [Task.updateMany({ _id: { $in: ids } }, { $set: set })]. *)
Definition set_many (ids : list string) (set : TaskBody) (m : gmap string Task)
  : gmap string Task :=
  map_imap (fun k t => Some (if bool_decide (k ∈ ids) then set_task set t else t)) m.

Definition Task_updateMany (ids : list string) (set : TaskBody) : Js unit :=
  issue (OpTaskUpdateMany ids set);;
  cast_ids ids;;
  w ← get_world;
  put_tasks (set_many ids set (tasks w)).

(** [Model.countDocuments(where)]. *)
Definition User_countDocuments (cond : Json) : Js nat :=
  issue (OpUserCount cond);;
  w ← get_world;
  l ← lift (match_users cond (users w));
  ret (length l).

Definition Task_countDocuments (cond : Json) : Js nat :=
  issue (OpTaskCount cond);;
  w ← get_world;
  l ← lift (match_tasks cond (tasks w));
  ret (length l).

(** [query.exec()] of a [find]. *)
Definition User_exec (q : Query) : Js (list (Doc User)) :=
  issue (OpUserFind q);;
  w ← get_world;
  l ← lift (match_users (q_where q) (users w));
  l ← (match q_sort q with Some s => lift (sort_users s l) | None => ret l end);
  l ← lift (apply_skip (q_skip q) l);
  ret (apply_limit (q_limit q) l).

Definition Task_exec (q : Query) : Js (list (Doc Task)) :=
  issue (OpTaskFind q);;
  w ← get_world;
  l ← lift (match_tasks (q_where q) (tasks w));
  l ← (match q_sort q with Some s => lift (sort_tasks s l) | None => ret l end);
  l ← lift (apply_skip (q_skip q) l);
  ret (apply_limit (q_limit q) l).

End Models.

(* ===================================================================== *)
(** * Requests and responses *)
(* ===================================================================== *)

Section Routes.
Context {H : Host}.

(** The [data] member of the envelope.  A projection asked for is kept
    next to the documents it applies to. *)
Inductive Data :=
| DEmpty
| DUser (select : option Json) (d : Doc User)
| DTask (select : option Json) (d : Doc Task)
| DUsers (select : option Json) (l : list (Doc User))
| DTasks (select : option Json) (l : list (Doc Task))
| DCount (n : nat).

(** [res.status(status).json({ message, data })]. *)
Record Response := response
  { status : Z; message : string; data : Data }.

(** [req.query] of the list routes. *)
Record ListParams := mkListParams
  { qp_where : option string;
    qp_sort : option string;
    qp_select : option string;
    qp_skip : option string;
    qp_limit : option string;
    qp_count : option string }.

Definition SyntaxError : JsError :=
  mkError "SyntaxError" None "Unexpected token in JSON".

(** [p ? JSON.parse(p) : {}]. *)
Definition json_param (p : option string) : Js Json :=
  match p with
  | Some s =>
      if truthy_string s
      then match JSON_parse s with
           | Some j => ret j
           | None => throw SyntaxError
           end
      else ret empty_object
  | None => ret empty_object
  end.

(** [p ? parseInt(p) : dflt]. *)
Definition int_param (p : option string) (dflt : Z) : option Z :=
  match p with
  | Some s => if truthy_string s then parseInt s else Some dflt
  | None => Some dflt
  end.

(** [req.query.count === 'true']. *)
Definition count_param (p : option string) : bool :=
  match p with Some s => String.eqb s "true" | None => false end.

(** [Model.find(where)] and the builder calls made on it. *)
Definition find (cond : Json) : Query := mkQuery cond None None None None.
Definition sort (s : Json) (q : Query) : Query :=
  mkQuery (q_where q) (Some s) (q_select q) (q_skip q) (q_limit q).
Definition select (s : Json) (q : Query) : Query :=
  mkQuery (q_where q) (q_sort q) (Some s) (q_skip q) (q_limit q).
Definition skip (n : Z) (q : Query) : Query :=
  mkQuery (q_where q) (q_sort q) (q_select q) (Some n) (q_limit q).
Definition limit (n : Z) (q : Query) : Query :=
  mkQuery (q_where q) (q_sort q) (q_select q) (q_skip q) (Some n).

(** [if (v) query = query.f(v)] for a number [v]; [NaN] and [0] are
    falsy. *)
Definition when_number (v : option Z) (f : Z -> Query -> Query) (q : Query) : Query :=
  match v with
  | Some z => if truthy_number v then f z q else q
  | None => q
  end.

Definition when_json (v : Json) (f : Json -> Query -> Query) (q : Query) : Query :=
  if truthy_json v then f v q else q.

(** The query the list handlers build from the parsed parameters. *)
Definition build_query (cond srt sel : Json) (skp lim : option Z) : Query :=
  let query := find cond in
  let query := when_json srt sort query in
  let query := when_json sel select query in
  let query := when_number skp skip query in
  let query := when_number lim limit query in
  query.

(** Lines 103 to 121 of users.js: the query of GET /users. *)
Definition users_query (params : ListParams) (cond srt sel : Json) : Query :=
  let skp := int_param (qp_skip params) 0 in
  let lim := int_param (qp_limit params) 0 in
  build_query cond srt sel skp lim.

(** Lines 113 to 129 of tasks.js: the query of GET /tasks. *)
Definition tasks_query (params : ListParams) (cond srt sel : Json) : Query :=
  let skp := int_param (qp_skip params) 0 in
  let lim := int_param (qp_limit params) 100 in
  build_query cond srt sel skp lim.

(** The inner [try] of the list handlers: the three JSON parameters, or
    nothing when one of them does not parse. *)
Definition parse_list_params (q : ListParams) : Js (option (Json * Json * Json)) :=
  try_catch
    (cond ← json_param (qp_where q);
     srt ← json_param (qp_sort q);
     sel ← json_param (qp_select q);
     ret (Some (cond, srt, sel)))
    (fun _ => ret None).

(** The inner [try] of the get-by-id handlers. *)
Definition parse_select (p : option string) : Js (option Json) :=
  try_catch (sel ← json_param p; ret (Some sel)) (fun _ => ret None).

(** [if (Object.keys(select).length > 0) query = query.select(select)]:
    the projection put on the query, if any. *)
Definition select_if_keys (sel : Json) : Js (option Json) :=
  match keys_length sel with
  | Some n => ret (if (0 <? n)%nat then Some sel else None)
  | None => throw TypeError
  end.

Definition is_duplicate_key (err : JsError) : bool :=
  match err_code err with Some c => c =? 11000 | None => false end.

Definition is_named (name : string) (err : JsError) : bool :=
  String.eqb (err_name err) name.

(* ===================================================================== *)
(** * src/routes/users.js *)
(* ===================================================================== *)

(** Lines 34 to 39: the fields of the new User, from the body. *)
Definition user_of_body (body : UserBody) (user : Doc User) : Doc User :=
  let user : Doc User :=
    (_id user, mkUser (or_else (ub_name body) EmptyString)
                      (or_else (ub_email body) EmptyString)
                      (u_pendingTasks (fields user))
                      (u_dateCreated (fields user))) in
  if truthy_array (ub_pendingTasks body)
  then (_id user, with_pendingTasks (or_else (ub_pendingTasks body) []) (fields user))
  else user.

(** POST /users *)
Definition post_users (body : UserBody) : Js Response :=
  try_catch
    (if negb (truthy_param (ub_name body)) || negb (truthy_param (ub_email body))
     then ret (response 400
                 "Validation Error: 'name' and 'email' are required fields." DEmpty)
     else
       user ← User_new;
       let user := user_of_body body user in
       User_save user;;
       ret (response 201 "User created!" (DUser None user)))
    (fun err =>
       if is_duplicate_key err
       then ret (response 400 "Email already exists." DEmpty)
       else if is_named "ValidationError" err
       then ret (response 400 ("Validation Error: " +:+ err_message err) DEmpty)
       else ret (response 500 "Server error." DEmpty)).

(** GET /users *)
Definition get_users (query : ListParams) : Js Response :=
  try_catch
    (parsed ← parse_list_params query;
     match parsed with
     | None =>
         ret (response 400
                "Bad Request: Invalid JSON in 'where', 'sort', or 'select' query parameter."
                DEmpty)
     | Some (cond, srt, sel) =>
         let count := count_param (qp_count query) in
         if count
         then countResult ← User_countDocuments cond;
              ret (response 200 "OK" (DCount countResult))
         else
           let query := users_query query cond srt sel in
           users ← User_exec query;
           ret (response 200 "OK" (DUsers (q_select query) users))
     end)
    (fun err =>
       if is_named "CastError" err
       then ret (response 404 "User not found." DEmpty)
       else ret (response 500 ("Server error: " +:+ err_message err) DEmpty)).

(** GET /users/:id *)
Definition get_users_id (id : string) (select_param : option string) : Js Response :=
  try_catch
    (parsed ← parse_select select_param;
     match parsed with
     | None =>
         ret (response 400 "Bad Request: Invalid JSON in 'select' query parameter." DEmpty)
     | Some sel =>
         projection ← select_if_keys sel;
         user ← User_findById id projection;
         match user with
         | None => ret (response 404 "User not found." DEmpty)
         | Some user =>
             ret (response 200 "OK" (DUser projection user))
         end
     end)
    (fun err =>
       if is_named "CastError" err
       then ret (response 404 "User not found." DEmpty)
       else ret (response 500 ("Server error: " +:+ err_message err) DEmpty)).

(** PUT /users/:id *)
Definition put_users_id (id : string) (body : UserBody) : Js Response :=
  try_catch
    (updatedUser ← User_findByIdAndUpdate id (USet body) new_and_validate;
     match updatedUser with
     | None => ret (response 404 "User not found." DEmpty)
     | Some updatedUser => ret (response 200 "User updated!" (DUser None updatedUser))
     end)
    (fun err =>
       if is_duplicate_key err
       then ret (response 400 "Email already exists." DEmpty)
       else if is_named "ValidationError" err
       then ret (response 400 ("Validation Error: " +:+ err_message err) DEmpty)
       else ret (response 500 "Server error." DEmpty)).

(** DELETE /users/:id *)
Definition delete_users_id (id : string) : Js Response :=
  try_catch
    (deletedUser ← User_findByIdAndDelete id;
     match deletedUser with
     | None => ret (response 404 "User not found." DEmpty)
     | Some deletedUser =>
         (if (0 <? length (u_pendingTasks (fields deletedUser)))%nat
          then Task_updateMany (u_pendingTasks (fields deletedUser)) unassign
          else ret tt);;
         ret (response 200 "User deleted! All associated tasks have been unassigned."
                (DUser None deletedUser))
     end)
    (fun err => ret (response 500 ("Server error: " +:+ err_message err) DEmpty)).

(* ===================================================================== *)
(** * src/routes/tasks.js *)
(* ===================================================================== *)

(** Lines 37 to 44: the fields of the new Task, from the body. *)
Definition task_of_body (body : TaskBody) (task : Doc Task) : Doc Task :=
  (_id task,
   set_task
     (mkTaskBody (tb_name body) (tb_deadline body)
        (if truthy_param (tb_description body) then tb_description body else None)
        (if truthy_flag (tb_completed body) then tb_completed body else None)
        (if truthy_param (tb_assignedUser body) then tb_assignedUser body else None)
        (if truthy_param (tb_assignedUserName body)
         then tb_assignedUserName body else None))
     (fields task)).

(** Line 48: is a write to the assigned User due? *)
Definition push_due (d : Doc Task) : bool :=
  truthy_string (t_assignedUser (fields d)) && negb (t_completed (fields d)).

(** The Task a request saves in a given state: the identifier is the next
    one of the generator. *)
Definition new_task (body : TaskBody) (w : World) : Doc Task :=
  task_of_body body (oid_of_nat (next_oid w), default_task).

(** POST /tasks *)
Definition post_tasks (body : TaskBody) : Js Response :=
  try_catch
    (if negb (truthy_param (tb_name body)) || negb (truthy_date (tb_deadline body))
     then ret (response 400
                 "Validation Error: 'name' and 'deadline' are required fields." DEmpty)
     else
       task ← Task_new;
       let task := task_of_body body task in
       savedTask ← Task_save task;
       (if push_due savedTask
        then await (User_findByIdAndUpdate (t_assignedUser (fields savedTask))
               (UPush (_id savedTask)) no_options)
        else ret tt);;
       ret (response 201 "Task created!" (DTask None savedTask)))
    (fun err =>
       if is_named "ValidationError" err
       then ret (response 400 ("Validation Error: " +:+ err_message err) DEmpty)
       else ret (response 500 "Server error." DEmpty)).

(** GET /tasks *)
Definition get_tasks (query : ListParams) : Js Response :=
  try_catch
    (parsed ← parse_list_params query;
     match parsed with
     | None =>
         ret (response 400
                "Bad Request: Invalid JSON in 'where', 'sort', or 'select' query parameter."
                DEmpty)
     | Some (cond, srt, sel) =>
         let count := count_param (qp_count query) in
         if count
         then countResult ← Task_countDocuments cond;
              ret (response 200 "OK" (DCount countResult))
         else
           let query := tasks_query query cond srt sel in
           tasks ← Task_exec query;
           ret (response 200 "OK" (DTasks (q_select query) tasks))
     end)
    (fun err => ret (response 500 ("Server error: " +:+ err_message err) DEmpty)).

(** GET /tasks/:id *)
Definition get_tasks_id (id : string) (select_param : option string) : Js Response :=
  try_catch
    (parsed ← parse_select select_param;
     match parsed with
     | None =>
         ret (response 400 "Bad Request: Invalid JSON in 'select' query parameter." DEmpty)
     | Some sel =>
         projection ← select_if_keys sel;
         task ← Task_findById id projection;
         match task with
         | None => ret (response 404 "Task not found." DEmpty)
         | Some task =>
             ret (response 200 "OK" (DTask projection task))
         end
     end)
    (fun err => ret (response 500 ("Server error: " +:+ err_message err) DEmpty)).

(** The reconciliation of [pendingTasks] in PUT /tasks/:id, lines 243 to
    278. *)
Definition reconcile (taskId : string) (oldTask updatedTask : Doc Task) : Js unit :=
  let oldUserId := t_assignedUser (fields oldTask) in
  let newUserId := t_assignedUser (fields updatedTask) in
  let wasCompleted := t_completed (fields oldTask) in
  let isCompleted := t_completed (fields updatedTask) in
  if negb (String.eqb oldUserId newUserId)
  then
    (if truthy_string oldUserId
     then await (User_findByIdAndUpdate oldUserId (UPull taskId) no_options)
     else ret tt);;
    (if truthy_string newUserId && negb isCompleted
     then await (User_findByIdAndUpdate newUserId (UPush taskId) no_options)
     else ret tt)
  else if truthy_string newUserId && negb (Bool.eqb wasCompleted isCompleted)
  then
    if isCompleted
    then await (User_findByIdAndUpdate newUserId (UPull taskId) no_options)
    else await (User_findByIdAndUpdate newUserId (UPush taskId) no_options)
  else ret tt.

(** ** The reconciliation policy, in the words of the specification

    Section 4.3, Update: (1) if the assigned User changed, remove the Task
    from the old User's list (if the old assignment was non-empty) and add
    it to the new User's list only if the new assignment is non-empty and
    the Task is not completed after the update; (2) else, if the assignment
    is unchanged (and non-empty) but the completed flag changed, add it when
    transitioning to not-completed and remove it when transitioning to
    completed; otherwise nothing. *)
Inductive PendingWrite :=
| Remove (taskId : string) (user : string)   (* remove taskId from user's list *)
| Add (taskId : string) (user : string).     (* add taskId to user's list *)

(** The writes the policy asks for, in its order. *)
Definition reconcile_policy (taskId oldUser newUser : string)
    (wasCompleted isCompleted : bool) : list PendingWrite :=
  if bool_decide (newUser <> oldUser)
  then (if bool_decide (oldUser <> EmptyString) then [Remove taskId oldUser] else [])
       ++ (if bool_decide (newUser <> EmptyString /\ isCompleted = false)
           then [Add taskId newUser] else [])
  else if bool_decide (newUser <> EmptyString /\ isCompleted <> wasCompleted)
  then [if isCompleted then Remove taskId newUser else Add taskId newUser]
  else [].

Definition write_target (x : PendingWrite) : string :=
  match x with Remove _ u | Add _ u => u end.

Definition write_update (x : PendingWrite) : UserUpdate :=
  match x with Remove t _ => UPull t | Add t _ => UPush t end.

(** The store call that carries out a write of the policy. *)
Definition write_op (x : PendingWrite) : StoreOp :=
  OpUserFindByIdAndUpdate (write_target x) (write_update x).

(** The writes carried out one after the other, each awaited. *)
Fixpoint run_writes (xs : list PendingWrite) : Js unit :=
  match xs with
  | [] => ret tt
  | x :: rest =>
      await (User_findByIdAndUpdate (write_target x) (write_update x) no_options);;
      run_writes rest
  end.

(** The writes that get issued when a refused one ends the sequence. *)
Fixpoint issued (xs : list PendingWrite) : list PendingWrite :=
  match xs with
  | [] => []
  | x :: rest => if isObjectId (write_target x) then x :: issued rest else [x]
  end.

(** What the writes do to the collection of Users. *)
Definition apply_writes (xs : list PendingWrite) (m : gmap string User)
  : gmap string User :=
  fold_left (fun m x => write_user (write_target x) (write_update x) m) xs m.

(** The Task after PUT /tasks/:id: the body is applied when it passes the
    validators, and the Task stays as it is when it does not. *)
Definition updated_task (body : TaskBody) (old : Task) : Task :=
  match validate_task_body body with
  | None => set_task body old
  | Some _ => old
  end.

(** PUT /tasks/:id *)
Definition put_tasks_id (taskId : string) (newBody : TaskBody) : Js Response :=
  try_catch
    (oldTask ← Task_findById taskId None;
     match oldTask with
     | None => ret (response 404 "Task not found." DEmpty)
     | Some oldTask =>
         updatedTask ← Task_findByIdAndUpdate taskId newBody new_and_validate;
         match updatedTask with
         | None => throw TypeError
         | Some updatedTask =>
             reconcile taskId oldTask updatedTask;;
             ret (response 200 "Task updated!" (DTask None updatedTask))
         end
     end)
    (fun err =>
       if is_named "ValidationError" err
       then ret (response 400 ("Validation Error: " +:+ err_message err) DEmpty)
       else ret (response 500 "Server error." DEmpty)).

(** DELETE /tasks/:id *)
Definition delete_tasks_id (id : string) : Js Response :=
  try_catch
    (deletedTask ← Task_findByIdAndDelete id;
     match deletedTask with
     | None => ret (response 404 "Task not found." DEmpty)
     | Some deletedTask =>
         (if truthy_string (t_assignedUser (fields deletedTask))
          then await (User_findByIdAndUpdate (t_assignedUser (fields deletedTask))
                 (UPull (_id deletedTask)) no_options)
          else ret tt);;
         ret (response 200 "Task deleted!" (DTask None deletedTask))
     end)
    (fun err => ret (response 500 ("Server error: " +:+ err_message err) DEmpty)).

(* ===================================================================== *)
(** * Notions the statements use *)
(* ===================================================================== *)

(** The invariant of the data model: a User's [pendingTasks] holds exactly
    the Tasks assigned to the User and not completed. *)
Definition mirror_invariant (w : World) : Prop :=
  forall (uid : string) (u : User) (tid : string),
    users w !! uid = Some u ->
    (tid ∈ u_pendingTasks u <->
     exists t, tasks w !! tid = Some t /\ t_assignedUser t = uid /\ t_completed t = false).

(** Every User is stored under an identifier. *)
Definition user_ids_well_formed (w : World) : Prop :=
  forall (uid : string) (u : User), users w !! uid = Some u -> isObjectId uid = true.




(** Two states with the same documents and the same identifier counter;
    only the log of calls may differ. *)
Definition same_documents (w w' : World) : Prop :=
  users w' = users w /\ tasks w' = tasks w /\ next_oid w' = next_oid w.

(** The same list request with other [skip] and [limit] parameters. *)
Definition with_paging (skp lim : option string) (q : ListParams) : ListParams :=
  mkListParams (qp_where q) (qp_sort q) (qp_select q) skp lim (qp_count q).

(** A query parameter that is there, not empty, and no JSON text. *)
Definition unparsable (p : option string) : Prop :=
  exists s, p = Some s /\ s <> EmptyString /\ JSON_parse s = None.

(** The status of an answer. *)
Definition status_of (o : Outcome Response) : option Z :=
  match o with Ret r => Some (status r) | Throw _ => None end.

(** Number of documents an answer carries, when it carries a list. *)
Definition documents (o : Outcome Response) : option nat :=
  match o with
  | Ret r =>
      match data r with
      | DUsers _ l => Some (length l)
      | DTasks _ l => Some (length l)
      | _ => None
      end
  | Throw _ => None
  end.

End Routes.

(* ===================================================================== *)
(** * A host to run the handlers on *)
(* ===================================================================== *)

(** The JSON texts [{}], [null], [true] and [false].  On these, and on
    texts that are no JSON at all, [tiny_parse] agrees with [JSON.parse]. *)
Inductive TinyJson := TEmptyObject | TNull | TBool (b : bool).

Definition tiny_parse (s : string) : option TinyJson :=
  if String.eqb s "{}" then Some TEmptyObject
  else if String.eqb s "null" then Some TNull
  else if String.eqb s "true" then Some (TBool true)
  else if String.eqb s "false" then Some (TBool false)
  else None.

Definition ObjectParameterError : JsError :=
  mkError "ObjectParameterError" None "Parameter must be an object".

(** Every document matches [{}] (and [null], which [find] reads as no
    filter); [{}] sorts nothing. *)
Definition tiny_match {A} (j : TinyJson) (m : gmap string A) : Outcome (list (Doc A)) :=
  match j with
  | TEmptyObject | TNull => Ret (map_to_list m)
  | TBool _ => Throw ObjectParameterError
  end.

Definition tiny_sort {A} (j : TinyJson) (l : list (Doc A)) : Outcome (list (Doc A)) :=
  match j with
  | TEmptyObject => Ret l
  | _ => Throw ObjectParameterError
  end.

Definition tiny_host : Host :=
  {| Json := TinyJson;
     JSON_parse := tiny_parse;
     empty_object := TEmptyObject;
     truthy_json := fun j => match j with TEmptyObject => true | TNull => false | TBool b => b end;
     keys_length := fun j => match j with TNull => None | _ => Some 0%nat end;
     match_users := tiny_match;
     match_tasks := tiny_match;
     sort_users := tiny_sort;
     sort_tasks := tiny_sort;
     truthy_empty_object := eq_refl;
     keys_empty_object := eq_refl |}.

Definition empty_world {H : Host} : World := mkWorld ∅ ∅ [] 0 0.

(* ===================================================================== *)
(** * Sample states and requests *)
(* ===================================================================== *)

Definition uidA : string := "aaaaaaaaaaaaaaaaaaaaaaaa".
Definition uidB : string := "bbbbbbbbbbbbbbbbbbbbbbbb".
Definition tid1 : string := "111111111111111111111111".
Definition tid2 : string := "222222222222222222222222".

Definition sample_task (completed : bool) (assignee name : string) : Task :=
  mkTask "report" 1700000000000 EmptyString completed assignee name.

(** Ann holds two tasks, one of them completed. *)
Definition ann_two_tasks : @World tiny_host :=
  mkWorld
    {[ uidA := mkUser "Ann" "ann@example.org" [tid1; tid2] 0 ]}
    {[ tid1 := sample_task false uidA "Ann"; tid2 := sample_task true uidA "Ann" ]}
    [] 0 0.

(** Ann's list names something that is no identifier. *)
Definition ann_stray_entry : @World tiny_host :=
  mkWorld {[ uidA := mkUser "Ann" "ann@example.org" ["nope"] 0 ]} ∅ [] 0 0.

(** A task assigned to a text that is no identifier. *)
Definition task_of_bob : @World tiny_host :=
  mkWorld {[ uidA := mkUser "Ann" "ann@example.org" [] 0 ]}
          {[ tid1 := sample_task false "bob" "Bob" ]} [] 0 0.

(** Ann holds the open task [tid1]; Bea holds nothing. *)
Definition ann_one_task : @World tiny_host :=
  mkWorld
    {[ uidA := mkUser "Ann" "ann@example.org" [tid1] 0;
       uidB := mkUser "Bea" "bea@example.org" [] 0 ]}
    {[ tid1 := sample_task false uidA "Ann" ]}
    [] 0 0.

(** A Task for a text that is no identifier. *)
Definition task_for_bob : TaskBody :=
  mkTaskBody (Some "report") (Some 1700000000000) None None (Some "bob") None.

(** An open Task for Ann, and the same Task already completed. *)
Definition task_for_ann (completed : bool) : TaskBody :=
  mkTaskBody (Some "report") (Some 1700000000000) None (Some completed) (Some uidA) None.

(** The task of "bob", and Bea who holds nothing. *)
Definition task_of_bob_and_bea : @World tiny_host :=
  mkWorld {[ uidB := mkUser "Bea" "bea@example.org" [] 0 ]}
          {[ tid1 := sample_task false "bob" "Bob" ]} [] 0 0.

Definition give_to_bea : TaskBody :=
  mkTaskBody None None None None (Some uidB) (Some "Bea").

(** [n] unassigned tasks. *)
Definition many_tasks (n : nat) : @World tiny_host :=
  mkWorld ∅
    (list_to_map (map (fun i => (oid_of_nat i, sample_task false EmptyString "unassigned"))
                      (seq 0 n)))
    [] n 0.

Definition no_params : ListParams := mkListParams None None None None None None.

Definition limit_only (s : string) : ListParams :=
  mkListParams None None None None (Some s) None.

Definition where_only (s : string) : ListParams :=
  mkListParams (Some s) None None None None None.

(** A new User whose list names a Task that does not exist. *)
Definition cy_with_pending : UserBody :=
  mkUserBody (Some "Cy") (Some "cy@example.org") (Some [tid1]).

(* ===================================================================== *)
(** * Running a computation *)
(* ===================================================================== *)

Ltac unfold_js :=
  repeat progress
    (unfold mbind, Js_bind, await, bind, try_catch, ret, throw, lift, get_world,
       put_users, put_tasks, fresh_oid, issue, logged, with_users, with_tasks,
       raise_if, cast_id; cbn).

(** Case analysis on the outcome of the next update call of the goal. *)
Ltac case_update :=
  match goal with
  | |- context [User_findByIdAndUpdate ?a ?b ?c ?w] =>
      destruct (User_findByIdAndUpdate a b c w) as [[?|?] ?]
  end.

Section StoreLemmas.
Context {H : Host}.

Lemma cast_ids_run (ids : list string) (w : World) :
  cast_ids ids w =
  (match first_malformed ids with
   | Some bad => Throw (CastError bad)
   | None => Ret tt
   end, w).
Proof.
  induction ids as [|id rest IH]; simpl; [reflexivity|].
  unfold_js. destruct (isObjectId id); simpl; [exact IH | reflexivity].
Qed.

Lemma first_malformed_none (ids : list string) :
  Forall (fun id => isObjectId id = true) ids -> first_malformed ids = None.
Proof.
  induction 1 as [|id rest Hid _ IH]; simpl; [reflexivity|].
  rewrite Hid. exact IH.
Qed.

Lemma nonempty_length {A} (l : list A) : l <> [] -> (0 <? length l)%nat = true.
Proof. destruct l; [congruence | reflexivity]. Qed.

Lemma set_many_lookup (ids : list string) (b : TaskBody) (m : gmap string Task)
    (k : string) :
  set_many ids b m !! k =
  (fun t => if bool_decide (k ∈ ids) then set_task b t else t) <$> (m !! k).
Proof.
  unfold set_many. rewrite map_lookup_imap.
  destruct (m !! k); reflexivity.
Qed.

Lemma insert_as_alter {A} (f : A -> A) (k : string) (a : A) (m : gmap string A) :
  m !! k = Some a -> <[k := f a]> m = alter f k m.
Proof.
  intros Hk. apply map_eq. intros j.
  rewrite lookup_insert, lookup_alter.
  case_decide; [subst; rewrite Hk|]; reflexivity.
Qed.

Lemma alter_absent {A} (f : A -> A) (k : string) (m : gmap string A) :
  m !! k = None -> alter f k m = m.
Proof.
  intros Hk. apply map_eq. intros j. rewrite lookup_alter.
  case_decide; [subst; rewrite Hk|]; reflexivity.
Qed.

(** A [$push] or [$pull] on [pendingTasks], awaited: refused when the text
    is no identifier, otherwise applied to the User named, if any. *)
Lemma pending_update_run (uid taskId : string) (push : bool) (w : World) :
  let upd := if push then UPush taskId else UPull taskId in
  await (User_findByIdAndUpdate uid upd no_options) w =
  if isObjectId uid
  then (Ret tt, with_users (write_user uid upd (users w))
                  (logged (OpUserFindByIdAndUpdate uid upd) w))
  else (Throw (CastError uid), logged (OpUserFindByIdAndUpdate uid upd) w).
Proof.
  intros upd. unfold User_findByIdAndUpdate, write_user. unfold_js.
  destruct (isObjectId uid); [|reflexivity]. unfold_js.
  destruct (users w !! uid) as [u|] eqn:Hu; unfold_js.
  - assert (Hmail : u_email (apply_user_update upd u) = u_email u)
      by (subst upd; destruct push; reflexivity).
    rewrite Hmail, String.eqb_refl. unfold_js.
    rewrite (insert_as_alter _ _ _ _ Hu). reflexivity.
  - rewrite (alter_absent _ _ _ Hu). reflexivity.
Qed.

Lemma pull_run (uid taskId : string) (w : World) :
  await (User_findByIdAndUpdate uid (UPull taskId) no_options) w =
  if isObjectId uid
  then (Ret tt, with_users (write_user uid (UPull taskId) (users w))
                  (logged (OpUserFindByIdAndUpdate uid (UPull taskId)) w))
  else (Throw (CastError uid), logged (OpUserFindByIdAndUpdate uid (UPull taskId)) w).
Proof. exact (pending_update_run uid taskId false w). Qed.

Lemma push_run (uid taskId : string) (w : World) :
  await (User_findByIdAndUpdate uid (UPush taskId) no_options) w =
  if isObjectId uid
  then (Ret tt, with_users (write_user uid (UPush taskId) (users w))
                  (logged (OpUserFindByIdAndUpdate uid (UPush taskId)) w))
  else (Throw (CastError uid), logged (OpUserFindByIdAndUpdate uid (UPush taskId)) w).
Proof. exact (pending_update_run uid taskId true w). Qed.

Lemma truthy_string_spec (s : string) : truthy_string s = negb (bool_decide (s = EmptyString)).
Proof. destruct s; reflexivity. Qed.

Lemma truthy_param_some (p : option string) :
  truthy_param p = true -> exists a s, p = Some (String a s).
Proof. destruct p as [[|a s]|]; simpl; try discriminate. eauto. Qed.

(** [save] of a valid Task under an unused identifier stores it. *)
Lemma Task_save_stored (d d' : Doc Task) (w w' : World) :
  Task_save d w = (Ret d', w') ->
  d' = d /\ tasks w !! _id d = None /\
  w' = with_tasks (<[_id d := fields d]> (tasks w)) (logged (OpTaskSave d) w).
Proof.
  unfold Task_save. unfold_js.
  destruct (t_name (fields d)); unfold_js; [discriminate|].
  case_bool_decide as Hin; unfold_js; [discriminate|].
  intros E. injection E as <- <-. repeat split.
  destruct (tasks w !! _id d) eqn:E; [|reflexivity]. destruct Hin. eauto.
Qed.

(** A [$push] can only be refused for the text of the identifier. *)
Lemma push_refused (uid taskId : string) (w w' : World) (e : JsError) :
  User_findByIdAndUpdate uid (UPush taskId) no_options w = (Throw e, w') ->
  isObjectId uid = false /\ e = CastError uid /\
  w' = logged (OpUserFindByIdAndUpdate uid (UPush taskId)) w.
Proof.
  intros Hrun. pose proof (push_run uid taskId w) as Hp.
  unfold await, bind in Hp. rewrite Hrun in Hp.
  destruct (isObjectId uid); [discriminate|].
  injection Hp as -> ->. repeat split.
Qed.

End StoreLemmas.

(* ===================================================================== *)
(** * DELETE /users/:id *)
(* ===================================================================== *)

Section DeleteUser.
Context {H : Host}.

(** The handler on a User that exists and has pending tasks: the User is
    removed and the bulk update issued; what follows depends on whether the
    store accepts the identifiers of the list. *)
Lemma delete_users_id_found (w : World) (id : string) (u : User) :
  users w !! id = Some u ->
  isObjectId id = true ->
  u_pendingTasks u <> [] ->
  let w1 := logged (OpTaskUpdateMany (u_pendingTasks u) unassign)
              (with_users (delete id (users w)) (logged (OpUserFindByIdAndDelete id) w)) in
  delete_users_id id w =
  match first_malformed (u_pendingTasks u) with
  | None =>
      (Ret (response 200 "User deleted! All associated tasks have been unassigned."
              (DUser None (id, u))),
       with_tasks (set_many (u_pendingTasks u) unassign (tasks w)) w1)
  | Some bad =>
      (Ret (response 500 ("Server error: " +:+ err_message (CastError bad)) DEmpty), w1)
  end.
Proof.
  intros Hu Hid Hne. unfold delete_users_id, User_findByIdAndDelete, Task_updateMany.
  unfold_js. rewrite Hid. unfold_js. rewrite Hu. unfold_js.
  pose proof (nonempty_length _ Hne) as Hlen. unfold Nat.ltb in Hlen. cbn in Hlen.
  rewrite Hlen. unfold_js.
  rewrite cast_ids_run.
  destruct (first_malformed (u_pendingTasks u)); reflexivity.
Qed.

(** C1 (amended).  DELETE /users/:id on a User that exists and whose
    [pendingTasks] is not empty and holds identifiers only: the User is
    removed; one bulk update is then issued over exactly the identifiers of
    the list, which sets [assignedUser] to the empty text and
    [assignedUserName] to "unassigned" in each Task named, whatever its
    [completed]; no other Task changes; the answer is 200 with the removed
    User. *)
Theorem delete_user_unassigns_pending (w : World) (id : string) (u : User) :
  users w !! id = Some u ->
  isObjectId id = true ->
  u_pendingTasks u <> [] ->
  Forall (fun t => isObjectId t = true) (u_pendingTasks u) ->
  exists w',
    delete_users_id id w =
      (Ret (response 200 "User deleted! All associated tasks have been unassigned."
              (DUser None (id, u))), w') /\
    users w' = delete id (users w) /\
    oplog w' = oplog w ++ [OpUserFindByIdAndDelete id;
                           OpTaskUpdateMany (u_pendingTasks u) unassign] /\
    forall k : string,
      tasks w' !! k =
      (fun t => if bool_decide (k ∈ u_pendingTasks u)
                then mkTask (t_name t) (t_deadline t) (t_description t)
                            (t_completed t) EmptyString "unassigned"
                else t) <$> (tasks w !! k).
Proof.
  intros Hu Hid Hne Hall.
  pose proof (delete_users_id_found w id u Hu Hid Hne) as Hrun. cbn zeta in Hrun.
  rewrite (first_malformed_none _ Hall) in Hrun.
  eexists. split; [exact Hrun|]. cbn.
  split; [reflexivity|]. split; [rewrite <- app_assoc; reflexivity|].
  intros k. apply set_many_lookup.
Qed.

(** When an entry of the list is no identifier the store refuses the bulk
    update: the User stays removed, no Task changes and the answer is
    500. *)
Lemma delete_user_refused_update (w : World) (id : string) (u : User) (bad : string) :
  users w !! id = Some u ->
  isObjectId id = true ->
  first_malformed (u_pendingTasks u) = Some bad ->
  exists w',
    delete_users_id id w =
      (Ret (response 500 ("Server error: " +:+ err_message (CastError bad)) DEmpty), w') /\
    users w' = delete id (users w) /\
    tasks w' = tasks w.
Proof.
  intros Hu Hid Hbad.
  assert (Hne : u_pendingTasks u <> []) by (intros E; rewrite E in Hbad; discriminate).
  pose proof (delete_users_id_found w id u Hu Hid Hne) as Hrun. cbn zeta in Hrun.
  rewrite Hbad in Hrun. eexists. split; [exact Hrun|]. split; reflexivity.
Qed.

End DeleteUser.

(* ===================================================================== *)
(** * DELETE /tasks/:id *)
(* ===================================================================== *)

Section DeleteTask.
Context {H : Host}.

(** The handler on a Task that exists. *)
Lemma delete_tasks_id_found (w : World) (id : string) (t : Task) :
  tasks w !! id = Some t ->
  isObjectId id = true ->
  let w1 := with_tasks (delete id (tasks w)) (logged (OpTaskFindByIdAndDelete id) w) in
  let uid := t_assignedUser t in
  delete_tasks_id id w =
  if truthy_string uid
  then
    if isObjectId uid
    then (Ret (response 200 "Task deleted!" (DTask None (id, t))),
          with_users (write_user uid (UPull id) (users w))
            (logged (OpUserFindByIdAndUpdate uid (UPull id)) w1))
    else (Ret (response 500 ("Server error: " +:+ err_message (CastError uid)) DEmpty),
          logged (OpUserFindByIdAndUpdate uid (UPull id)) w1)
  else (Ret (response 200 "Task deleted!" (DTask None (id, t))), w1).
Proof.
  intros Ht Hid. cbn zeta.
  unfold delete_tasks_id, Task_findByIdAndDelete.
  unfold mbind, Js_bind, bind, try_catch, issue, cast_id, get_world, put_tasks, ret.
  rewrite Hid. cbn. rewrite Ht. cbn.
  destruct (truthy_string (t_assignedUser t)); [|reflexivity].
  rewrite pull_run. destruct (isObjectId (t_assignedUser t)); reflexivity.
Qed.

(** C8 (amended).  DELETE /tasks/:id.  When no Task has the identifier
    the answer is 404.  When one has, it is removed, and: if its
    [assignedUser] is empty no User is written; if it is an identifier,
    the Task's identifier is removed from the [pendingTasks] of that
    User; in both cases the answer is 200 with the removed Task. *)
Theorem delete_task_pulls_pending (w : World) (id : string) :
  isObjectId id = true ->
  (tasks w !! id = None ->
   exists w',
     delete_tasks_id id w = (Ret (response 404 "Task not found." DEmpty), w') /\
     tasks w' = tasks w /\ users w' = users w) /\
  (forall t : Task,
     tasks w !! id = Some t ->
     t_assignedUser t = EmptyString \/ isObjectId (t_assignedUser t) = true ->
     exists w',
       delete_tasks_id id w =
         (Ret (response 200 "Task deleted!" (DTask None (id, t))), w') /\
       tasks w' = delete id (tasks w) /\
       users w' = (if bool_decide (t_assignedUser t = EmptyString) then users w
                   else alter (pull_pending id) (t_assignedUser t) (users w)) /\
       oplog w' = oplog w ++ OpTaskFindByIdAndDelete id ::
                    (if bool_decide (t_assignedUser t = EmptyString) then []
                     else [OpUserFindByIdAndUpdate (t_assignedUser t) (UPull id)])).
Proof.
  intros Hid. split.
  - intros Hnone. eexists. split.
    + unfold delete_tasks_id, Task_findByIdAndDelete.
      unfold mbind, Js_bind, bind, try_catch, issue, cast_id, get_world, put_tasks, ret.
      rewrite Hid. cbn. rewrite Hnone. reflexivity.
    + cbn. split; [|reflexivity]. apply map_eq. intros j.
      rewrite lookup_delete. case_decide; [subst; symmetry; exact Hnone | reflexivity].
  - intros t Ht Hok.
    pose proof (delete_tasks_id_found w id t Ht Hid) as Hrun. cbn zeta in Hrun.
    rewrite truthy_string_spec in Hrun.
    destruct (bool_decide (t_assignedUser t = EmptyString)) eqn:He; cbn in Hrun.
    + eexists. split; [exact Hrun|]. cbn. repeat split.
    + destruct Hok as [Hempty|Hoid].
      * apply bool_decide_eq_false in He. contradiction.
      * rewrite Hoid in Hrun. eexists. split; [exact Hrun|]. cbn.
        unfold write_user. rewrite Hoid. repeat split.
        rewrite <- app_assoc. reflexivity.
Qed.

(** When the [assignedUser] of the Task is not empty and no identifier,
    the Task is removed all the same and the answer is 500. *)
Lemma delete_task_refused_pull (w : World) (id : string) (t : Task) :
  tasks w !! id = Some t ->
  isObjectId id = true ->
  t_assignedUser t <> EmptyString ->
  isObjectId (t_assignedUser t) = false ->
  exists w',
    delete_tasks_id id w =
      (Ret (response 500 ("Server error: " +:+ err_message (CastError (t_assignedUser t)))
              DEmpty), w') /\
    tasks w' = delete id (tasks w) /\ users w' = users w.
Proof.
  intros Ht Hid Hne Hbad.
  pose proof (delete_tasks_id_found w id t Ht Hid) as Hrun. cbn zeta in Hrun.
  rewrite truthy_string_spec, Hbad in Hrun.
  rewrite bool_decide_eq_false_2 in Hrun by assumption. cbn in Hrun.
  eexists. split; [exact Hrun|]. split; reflexivity.
Qed.

End DeleteTask.

(* ===================================================================== *)
(** * POST /tasks *)
(* ===================================================================== *)

Section CreateTask.
Context {H : Host}.

(** The handler, once the required fields are there. *)
Lemma post_tasks_run (w : World) (body : TaskBody) :
  truthy_param (tb_name body) = true ->
  truthy_date (tb_deadline body) = true ->
  let d := new_task body w in
  let uid := t_assignedUser (fields d) in
  let w0 := mkWorld (users w) (tasks w) (oplog w) (S (next_oid w)) (clock w) in
  let w1 := logged (OpTaskSave d) w0 in
  let w2 := with_tasks (<[_id d := fields d]> (tasks w)) w1 in
  let w3 := logged (OpUserFindByIdAndUpdate uid (UPush (_id d))) w2 in
  post_tasks body w =
  if bool_decide (is_Some (tasks w !! _id d))
  then (Ret (response 500 "Server error." DEmpty), w1)
  else if push_due d
  then if isObjectId uid
       then (Ret (response 201 "Task created!" (DTask None d)),
             with_users (write_user uid (UPush (_id d)) (users w)) w3)
       else (Ret (response 500 "Server error." DEmpty), w3)
  else (Ret (response 201 "Task created!" (DTask None d)), w2).
Proof.
  intros Hname Hdead. cbn zeta.
  destruct (truthy_param_some _ Hname) as (a & n & Hn).
  unfold post_tasks, Task_new, Task_save, new_task, push_due.
  unfold mbind, Js_bind, bind, try_catch, fresh_oid, ret, issue, get_world,
    put_tasks, raise_if.
  rewrite Hname, Hdead. cbn.
  unfold validate_task, validate_task_body. cbn. rewrite Hn. cbn.
  case_bool_decide; cbn; [reflexivity|].
  match goal with |- context [truthy_string ?u && negb ?c] =>
    destruct (truthy_string u && negb c); [|reflexivity] end.
  rewrite push_run.
  match goal with |- context [isObjectId ?u] => destruct (isObjectId u) end;
    reflexivity.
Qed.

(** C3.  POST /tasks answered with 201: the new Task is stored, and its
    identifier is appended to the [pendingTasks] of the User it is assigned
    to exactly when the saved Task has a non-empty [assignedUser] and is not
    completed; otherwise no call on Users is issued.  In particular a body
    with [completed = true] leads to no write on Users. *)
Theorem post_tasks_appends_when_pending
    (w w' : World) (body : TaskBody) (r : Response) :
  post_tasks body w = (Ret r, w') ->
  status r = 201 ->
  let d := new_task body w in
  let uid := t_assignedUser (fields d) in
  let due := bool_decide (uid <> EmptyString /\ t_completed (fields d) = false) in
  data r = DTask None d /\
  tasks w' = <[_id d := fields d]> (tasks w) /\
  users w' = (if due then alter (push_pending (_id d)) uid (users w) else users w) /\
  oplog w' = oplog w ++ OpTaskSave d ::
               (if due then [OpUserFindByIdAndUpdate uid (UPush (_id d))] else []) /\
  (tb_completed body = Some true -> due = false).
Proof.
  intros Hrun Hst. cbn zeta.
  destruct (truthy_param (tb_name body)) eqn:Hname;
    [destruct (truthy_date (tb_deadline body)) eqn:Hdead|].
  - rewrite (post_tasks_run w body Hname Hdead) in Hrun. cbn zeta in Hrun.
    assert (Hdue : push_due (new_task body w) =
                   bool_decide (t_assignedUser (fields (new_task body w)) <> EmptyString
                                /\ t_completed (fields (new_task body w)) = false)).
    { unfold push_due. rewrite truthy_string_spec.
      destruct (t_completed (fields (new_task body w)));
        repeat case_bool_decide; cbn; try reflexivity; intuition congruence. }
    rewrite Hdue in Hrun.
    assert (Hcompl : tb_completed body = Some true ->
                     bool_decide (t_assignedUser (fields (new_task body w)) <> EmptyString
                                  /\ t_completed (fields (new_task body w)) = false) = false).
    { intros Hc. apply bool_decide_eq_false. intros [_ Hf].
      unfold new_task, task_of_body in Hf. cbn in Hf. rewrite Hc in Hf. discriminate. }
    clear Hdue. generalize dependent (new_task body w). intros d Hrun Hcompl.
    destruct (bool_decide (is_Some (tasks w !! _id d)));
      [injection Hrun as <- <-; discriminate|].
    destruct (bool_decide (t_assignedUser (fields d) <> EmptyString
                           /\ t_completed (fields d) = false)).
    + destruct (isObjectId (t_assignedUser (fields d))) eqn:Hoid;
        injection Hrun as <- <-; [|discriminate].
      unfold write_user. rewrite Hoid. cbn.
      repeat split; try assumption.
      rewrite <- !app_assoc. reflexivity.
    + injection Hrun as <- <-. cbn.
      repeat split; assumption.
  - exfalso. unfold post_tasks, mbind, Js_bind, bind, try_catch, ret in Hrun.
    rewrite Hname, Hdead in Hrun. cbn in Hrun. injection Hrun as <- <-. discriminate.
  - exfalso. unfold post_tasks, mbind, Js_bind, bind, try_catch, ret in Hrun.
    rewrite Hname in Hrun. cbn in Hrun. injection Hrun as <- <-. discriminate.
Qed.

(** C6 (amended).  POST /tasks whose [save] succeeds and whose write to
    the [pendingTasks] of the assigned User is refused: the refusal reaches
    the client as 500 "Server error." with empty data, and the Task stays
    stored. *)
Theorem post_tasks_refused_push
    (w w0 w1 w2 : World) (body : TaskBody) (d0 : Doc Task) (e : JsError) :
  truthy_param (tb_name body) = true ->
  truthy_date (tb_deadline body) = true ->
  Task_new w = (Ret d0, w0) ->
  let d := task_of_body body d0 in
  Task_save d w0 = (Ret d, w1) ->
  push_due d = true ->
  User_findByIdAndUpdate (t_assignedUser (fields d)) (UPush (_id d)) no_options w1
    = (Throw e, w2) ->
  post_tasks body w = (Ret (response 500 "Server error." DEmpty), w2) /\
  tasks w2 !! _id d = Some (fields d).
Proof.
  intros Hname Hdead Hnew d Hsave Hdue Hpush.
  apply push_refused in Hpush as (Hoid & -> & ->).
  apply Task_save_stored in Hsave as (_ & Hfresh & ->).
  assert (Hd : d = new_task body w /\ w0 = mkWorld (users w) (tasks w) (oplog w)
                                               (S (next_oid w)) (clock w)).
  { unfold Task_new, mbind, Js_bind, bind, fresh_oid, ret in Hnew.
    injection Hnew as <- <-. split; reflexivity. }
  destruct Hd as [Hd ->]. clearbody d. subst d. cbn [tasks] in Hfresh.
  rewrite (post_tasks_run w body Hname Hdead). cbn zeta.
  rewrite bool_decide_eq_false_2 by (rewrite Hfresh; intros [? ?]; discriminate).
  rewrite Hdue, Hoid. split; [reflexivity|]. cbn [tasks logged with_tasks].
  apply lookup_insert_eq.
Qed.

(** Without a name or a deadline the handler answers at once. *)
Lemma post_tasks_missing_field_run (w : World) (body : TaskBody) :
  truthy_param (tb_name body) = false \/ truthy_date (tb_deadline body) = false ->
  post_tasks body w =
    (Ret (response 400 "Validation Error: 'name' and 'deadline' are required fields." DEmpty),
     w).
Proof.
  intros Hmiss. unfold post_tasks, try_catch, ret.
  destruct Hmiss as [-> | ->]; [|rewrite orb_true_r]; reflexivity.
Qed.

End CreateTask.

(* ===================================================================== *)
(** * PUT /tasks/:id *)
(* ===================================================================== *)

Section UpdateTask.
Context {H : Host}.

Lemma run_writes_one (x : PendingWrite) (w : World) :
  run_writes [x] w =
  await (User_findByIdAndUpdate (write_target x) (write_update x) no_options) w.
Proof.
  cbn [run_writes]. unfold mbind, Js_bind, await. unfold bind, ret.
  case_update; reflexivity.
Qed.

Lemma run_writes_two (x y : PendingWrite) (w : World) :
  run_writes [x; y] w =
  (await (User_findByIdAndUpdate (write_target x) (write_update x) no_options);;
   await (User_findByIdAndUpdate (write_target y) (write_update y) no_options)) w.
Proof.
  cbn [run_writes]. unfold mbind, Js_bind, await. unfold bind, ret.
  case_update; [|reflexivity]. case_update; reflexivity.
Qed.

(** The code of lines 243 to 278 carries out the writes of the policy, in
    its order, each awaited. *)
Lemma reconcile_as_policy (taskId : string) (oldTask updatedTask : Doc Task) (w : World) :
  reconcile taskId oldTask updatedTask w =
  run_writes
    (reconcile_policy taskId
       (t_assignedUser (fields oldTask)) (t_assignedUser (fields updatedTask))
       (t_completed (fields oldTask)) (t_completed (fields updatedTask))) w.
Proof.
  unfold reconcile, reconcile_policy.
  set (old := t_assignedUser (fields oldTask)).
  set (new := t_assignedUser (fields updatedTask)).
  set (was := t_completed (fields oldTask)).
  set (is_ := t_completed (fields updatedTask)).
  rewrite !truthy_string_spec.
  destruct (String.eqb_spec old new) as [<-|Hne].
  - rewrite (bool_decide_eq_false_2 (old <> old)) by congruence.
    cbn [negb].
    destruct (bool_decide (old = EmptyString)) eqn:He; cbn [negb andb].
    + apply bool_decide_eq_true in He.
      rewrite bool_decide_eq_false_2 by tauto. reflexivity.
    + apply bool_decide_eq_false in He.
      destruct was, is_; cbn [Bool.eqb negb];
        first [ rewrite bool_decide_eq_true_2 by (split; congruence)
              | rewrite bool_decide_eq_false_2 by (intros [_ ?]; congruence) ];
        try reflexivity; rewrite run_writes_one; reflexivity.
  - rewrite (bool_decide_eq_true_2 (new <> old)) by congruence. cbn [negb].
    destruct (bool_decide (old = EmptyString)) eqn:He;
      [apply bool_decide_eq_true in He | apply bool_decide_eq_false in He].
    + rewrite (bool_decide_eq_false_2 (old <> EmptyString)) by tauto. cbn [negb app].
      destruct (bool_decide (new = EmptyString)) eqn:Hn;
        [apply bool_decide_eq_true in Hn | apply bool_decide_eq_false in Hn];
        destruct is_; cbn [negb andb]; try (exfalso; congruence);
        first [ rewrite bool_decide_eq_true_2 by (split; congruence)
              | rewrite bool_decide_eq_false_2 by (intros [? ?]; congruence) ];
        try reflexivity.
      rewrite run_writes_one. reflexivity.
    + rewrite (bool_decide_eq_true_2 (old <> EmptyString)) by tauto. cbn [negb app].
      destruct (bool_decide (new = EmptyString)) eqn:Hn;
        [apply bool_decide_eq_true in Hn | apply bool_decide_eq_false in Hn];
        destruct is_; cbn [negb andb]; try (exfalso; congruence);
        first [ rewrite bool_decide_eq_true_2 by (split; congruence)
              | rewrite bool_decide_eq_false_2 by (intros [? ?]; congruence) ];
        cbn [app];
        first [ rewrite run_writes_two; reflexivity
              | rewrite run_writes_one; cbn [write_target write_update];
                unfold mbind, Js_bind, await; unfold bind, ret;
                case_update; reflexivity ].
Qed.

Lemma write_run (x : PendingWrite) (w : World) :
  await (User_findByIdAndUpdate (write_target x) (write_update x) no_options) w =
  if isObjectId (write_target x)
  then (Ret tt, with_users (write_user (write_target x) (write_update x) (users w))
                  (logged (write_op x) w))
  else (Throw (CastError (write_target x)), logged (write_op x) w).
Proof. destruct x; [apply pull_run | apply push_run]. Qed.

(** The writes of a list, run: those issued are applied and logged, and
    the first refusal, if any, is thrown. *)
Lemma run_writes_run (xs : list PendingWrite) (w : World) :
  run_writes xs w =
  (match first_malformed (map write_target xs) with
   | Some bad => Throw (CastError bad)
   | None => Ret tt
   end,
   mkWorld (apply_writes (issued xs) (users w)) (tasks w)
           (oplog w ++ map write_op (issued xs)) (next_oid w) (clock w)).
Proof.
  revert w. induction xs as [|x rest IH]; intros w.
  - cbn. rewrite app_nil_r. destruct w; reflexivity.
  - cbn [run_writes map first_malformed issued].
    unfold mbind, Js_bind. unfold bind at 1. rewrite write_run.
    destruct (isObjectId (write_target x)) eqn:Hx.
    + rewrite IH. cbn. rewrite <- app_assoc. reflexivity.
    + cbn. unfold write_user. rewrite Hx. reflexivity.
Qed.

(** When every write but the last is accepted, all writes are issued. *)
Lemma issued_all (xs : list PendingWrite) :
  Forall (fun x => isObjectId (write_target x) = true) (removelast xs) ->
  issued xs = xs.
Proof.
  induction xs as [|x [|y rest] IH]; intros Hall; cbn [issued].
  - reflexivity.
  - destruct (isObjectId (write_target x)); reflexivity.
  - cbn [removelast] in Hall. inversion Hall as [|? ? Hx Hrest]; subst.
    rewrite Hx. f_equal. apply IH. exact Hrest.
Qed.

(** In the policy every write but the last goes to the old User. *)
Lemma policy_removelast (taskId oldUser newUser : string) (was is_ : bool) :
  oldUser = EmptyString \/ isObjectId oldUser = true ->
  Forall (fun x => isObjectId (write_target x) = true)
         (removelast (reconcile_policy taskId oldUser newUser was is_)).
Proof.
  intros Hold. unfold reconcile_policy.
  repeat case_bool_decide; cbn; repeat constructor.
  destruct Hold; [contradiction | assumption].
Qed.

(** PUT /tasks/:id on a Task that exists. *)
Lemma put_tasks_id_found (w : World) (taskId : string) (body : TaskBody) (old : Task) :
  tasks w !! taskId = Some old ->
  isObjectId taskId = true ->
  let w2 := logged (OpTaskFindByIdAndUpdate taskId body)
              (logged (OpTaskFindById taskId None) w) in
  put_tasks_id taskId body w =
  match validate_task_body body with
  | Some e => (Ret (response 400 ("Validation Error: " +:+ err_message e) DEmpty), w2)
  | None =>
      let new := set_task body old in
      let w3 := with_tasks (<[taskId := new]> (tasks w)) w2 in
      match run_writes (reconcile_policy taskId (t_assignedUser old) (t_assignedUser new)
                          (t_completed old) (t_completed new)) w3 with
      | (Ret _, w4) => (Ret (response 200 "Task updated!" (DTask None (taskId, new))), w4)
      | (Throw _, w4) => (Ret (response 500 "Server error." DEmpty), w4)
      end
  end.
Proof.
  intros Hold Hid. cbn zeta.
  unfold put_tasks_id, Task_findById, Task_findByIdAndUpdate.
  unfold mbind, Js_bind. unfold bind at 1 2 3 4 5.
  unfold try_catch, issue, cast_id, get_world, ret.
  rewrite Hid. cbn. rewrite Hold. cbn.
  unfold put_tasks, raise_if, bind, ret, throw.
  destruct (validate_task_body body) as [e|] eqn:Hv.
  - assert (He : is_named "ValidationError" e = true).
    { unfold validate_task_body in Hv. destruct (tb_name body) as [[|]|]; try discriminate.
      injection Hv as <-. reflexivity. }
    rewrite He. reflexivity.
  - cbn. rewrite Hold. rewrite reconcile_as_policy.
    cbn [fields snd t_assignedUser t_completed set_task].
    rewrite run_writes_run.
    destruct (first_malformed _); reflexivity.
Qed.

(** C2 (amended).  PUT /tasks/:id on a Task that exists, when the old
    assignment is empty or an identifier (so that the removal from the old
    User is not refused): the calls on Users that follow the update are
    exactly the writes of the policy, in its order, and the collection of
    Users is changed by them and by nothing else.  The policy: if the
    assignment after the update differs from the one before, remove the
    Task from the old User's list when the old assignment is non-empty, and
    add it to the new User's list exactly when the new assignment is
    non-empty and the Task is not completed after the update; otherwise, if
    the assignment is non-empty and the completed flag changed, add on a
    transition to not-completed and remove on a transition to completed; in
    every other case nothing is written on Users. *)
Theorem put_task_reconciles (w : World) (taskId : string) (body : TaskBody) (old : Task) :
  tasks w !! taskId = Some old ->
  isObjectId taskId = true ->
  t_assignedUser old = EmptyString \/ isObjectId (t_assignedUser old) = true ->
  let new := updated_task body old in
  let writes := reconcile_policy taskId (t_assignedUser old) (t_assignedUser new)
                  (t_completed old) (t_completed new) in
  exists (r : Response) (w' : World),
    put_tasks_id taskId body w = (Ret r, w') /\
    tasks w' = <[taskId := new]> (tasks w) /\
    users w' = apply_writes writes (users w) /\
    oplog w' = oplog w ++ [OpTaskFindById taskId None; OpTaskFindByIdAndUpdate taskId body]
                       ++ map write_op writes.
Proof.
  intros Hold Hid Hok. cbn zeta.
  rewrite (put_tasks_id_found w taskId body old Hold Hid). cbn zeta.
  unfold updated_task. destruct (validate_task_body body) as [e|].
  - do 2 eexists. split; [reflexivity|]. cbn.
    assert (Hnil : reconcile_policy taskId (t_assignedUser old) (t_assignedUser old)
                     (t_completed old) (t_completed old) = []).
    { unfold reconcile_policy. rewrite !bool_decide_eq_false_2; [reflexivity| |];
        intros ?; intuition congruence. }
    rewrite Hnil. cbn. repeat split.
    + symmetry. apply insert_id. exact Hold.
    + rewrite <- app_assoc. reflexivity.
  - rewrite run_writes_run.
    rewrite (issued_all _ (policy_removelast taskId _ _ _ _ Hok)).
    destruct (first_malformed _); do 2 eexists; (split; [reflexivity|]); cbn;
      rewrite <- !app_assoc; repeat split.
Qed.

End UpdateTask.

(* ===================================================================== *)
(** * GET /users/:id and GET /tasks/:id *)
(* ===================================================================== *)

Section GetById.
Context {H : Host}.

Lemma parse_select_absent (w : World) : parse_select None w = (Ret (Some empty_object), w).
Proof. reflexivity. Qed.

(** GET /users/:id with a text that is no identifier: the CastError is
    caught by name and answered with 404. *)
Lemma get_users_id_malformed_404 (w : World) (id : string) :
  isObjectId id = false ->
  get_users_id id None w =
    (Ret (response 404 "User not found." DEmpty), logged (OpUserFindById id None) w).
Proof.
  intros Hid. unfold get_users_id, select_if_keys, User_findById.
  unfold mbind, Js_bind, bind, try_catch. rewrite parse_select_absent.
  rewrite keys_empty_object. cbn. unfold cast_id. rewrite Hid. reflexivity.
Qed.

(** C4, at the Task route.  GET /tasks/:id with a text that is no
    identifier: the [catch] has no case for the CastError, and the answer
    is 500 with the message of the error, not 404 "Task not found.". *)
Theorem get_tasks_id_malformed_500 (w : World) (id : string) :
  isObjectId id = false ->
  get_tasks_id id None w =
    (Ret (response 500 ("Server error: " +:+ err_message (CastError id)) DEmpty),
     logged (OpTaskFindById id None) w).
Proof.
  intros Hid. unfold get_tasks_id, select_if_keys, Task_findById.
  unfold mbind, Js_bind, bind, try_catch. rewrite parse_select_absent.
  rewrite keys_empty_object. cbn. unfold cast_id. rewrite Hid. reflexivity.
Qed.

End GetById.

(* ===================================================================== *)
(** * GET /users and GET /tasks *)
(* ===================================================================== *)

Section ListRoutes.
Context {H : Host}.

Lemma json_param_run (p : option string) (w : World) :
  json_param p w =
  (match p with
   | Some s =>
       if truthy_string s
       then match JSON_parse s with Some j => Ret j | None => Throw SyntaxError end
       else Ret empty_object
   | None => Ret empty_object
   end, w).
Proof.
  unfold json_param. destruct p as [s|]; [|reflexivity].
  destruct (truthy_string s); [|reflexivity].
  destruct (JSON_parse s); reflexivity.
Qed.

Lemma json_param_unparsable (p : option string) (w : World) :
  unparsable p -> json_param p w = (Throw SyntaxError, w).
Proof.
  intros (s & -> & Hne & Hparse). rewrite json_param_run, Hparse.
  destruct s; [contradiction | reflexivity].
Qed.

Lemma json_param_pure (p : option string) (w : World) :
  exists o, json_param p w = (o, w).
Proof. rewrite json_param_run. eauto. Qed.

(** The inner [try] gives nothing as soon as one parameter does not parse;
    it leaves the state as it is. *)
Lemma parse_list_params_unparsable (q : ListParams) (w : World) :
  unparsable (qp_where q) \/ unparsable (qp_sort q) \/ unparsable (qp_select q) ->
  parse_list_params q w = (Ret None, w).
Proof.
  intros Hbad. unfold parse_list_params, mbind, Js_bind, bind, try_catch, ret.
  destruct (json_param_pure (qp_where q) w) as [[j1|e1] E1]; rewrite E1; [|reflexivity].
  destruct (json_param_pure (qp_sort q) w) as [[j2|e2] E2]; rewrite E2; [|reflexivity].
  destruct (json_param_pure (qp_select q) w) as [[j3|e3] E3]; rewrite E3; [|reflexivity].
  exfalso. destruct Hbad as [Hb|[Hb|Hb]];
    apply (json_param_unparsable _ w) in Hb; congruence.
Qed.

(** C7 (amended).  A list request in which [where], [sort] or [select] is
    there, not empty, and no JSON text is answered with 400, on both
    resources, whatever the other parameters ([count] included); the state
    of the store and the log of calls are as before: no call is issued. *)
Theorem list_rejects_unparsable (q : ListParams) (w : World) :
  unparsable (qp_where q) \/ unparsable (qp_sort q) \/ unparsable (qp_select q) ->
  get_users q w =
    (Ret (response 400
            "Bad Request: Invalid JSON in 'where', 'sort', or 'select' query parameter."
            DEmpty), w) /\
  get_tasks q w =
    (Ret (response 400
            "Bad Request: Invalid JSON in 'where', 'sort', or 'select' query parameter."
            DEmpty), w).
Proof.
  intros Hbad. unfold get_users, get_tasks, mbind, Js_bind, bind, try_catch.
  rewrite (parse_list_params_unparsable q w Hbad). split; reflexivity.
Qed.

Lemma apply_limit_bound {A} (n : Z) (l : list A) :
  0 < n -> (length (apply_limit (Some n) l) <= Z.to_nat n)%nat.
Proof.
  intros Hn. unfold apply_limit. destruct (Z.eqb_spec n 0) as [->|_]; [lia|].
  rewrite length_take, Z.abs_eq by lia. lia.
Qed.

Lemma build_query_limit (cond srt sel : Json) (skp lim : option Z) :
  q_limit (build_query cond srt sel skp lim) =
  match lim with Some z => if z =? 0 then None else Some z | None => None end.
Proof.
  unfold build_query, when_number, when_json, truthy_number.
  destruct lim as [z|]; [destruct (z =? 0)|]; cbn;
    destruct skp as [k|]; [destruct (k =? 0)| | destruct (k =? 0)| | destruct (k =? 0)|]; cbn;
    destruct (truthy_json sel), (truthy_json srt); reflexivity.
Qed.

Lemma build_query_where (cond srt sel : Json) (skp lim : option Z) :
  q_where (build_query cond srt sel skp lim) = cond.
Proof.
  unfold build_query, when_number, when_json.
  destruct lim as [z|]; [destruct (truthy_number (Some z))|];
    (destruct skp as [k|]; [destruct (truthy_number (Some k))|]);
    destruct (truthy_json sel), (truthy_json srt); reflexivity.
Qed.

Lemma build_query_skip (cond srt sel : Json) (skp lim : option Z) :
  q_skip (build_query cond srt sel skp lim) =
  match skp with Some z => if z =? 0 then None else Some z | None => None end.
Proof.
  unfold build_query, when_number, when_json, truthy_number.
  destruct lim as [z|]; [destruct (z =? 0)|]; cbn;
    destruct skp as [k|]; [destruct (k =? 0)| | destruct (k =? 0)| | destruct (k =? 0)|]; cbn;
    destruct (truthy_json sel), (truthy_json srt); reflexivity.
Qed.

(** GET /tasks without [limit] answers with at most 100 documents. *)
Lemma get_tasks_default_limit (q : ListParams) (w w' : World) (r : Response)
    (sel : option Json) (l : list (Doc Task)) :
  qp_limit q = None ->
  get_tasks q w = (Ret r, w') ->
  data r = DTasks sel l ->
  (length l <= 100)%nat.
Proof.
  intros Hlim Hrun Hdata.
  unfold get_tasks, mbind, Js_bind, bind, try_catch in Hrun.
  destruct (parse_list_params q w) as [[[[[cond srt] s]|]|e] w1].
  - destruct (count_param (qp_count q)).
    + unfold Task_countDocuments, mbind, Js_bind, bind, issue, get_world, lift, ret in Hrun.
      destruct (match_tasks cond _); injection Hrun as <- _; discriminate.
    + unfold Task_exec, mbind, Js_bind, bind, issue, get_world, lift, ret in Hrun.
      cbn [tasks logged] in Hrun.
      assert (Hq : q_limit (tasks_query q cond srt s) = Some 100).
      { unfold tasks_query. rewrite build_query_limit, Hlim. reflexivity. }
      rewrite Hq in Hrun.
      destruct (match_tasks _ _) as [l0|?]; [|injection Hrun as <- _; discriminate].
      destruct (q_sort (tasks_query q cond srt s)) as [so|].
      * destruct (sort_tasks so l0) as [l1|?]; [|injection Hrun as <- _; discriminate].
        destruct (apply_skip _ l1) as [l2|?]; [|injection Hrun as <- _; discriminate].
        injection Hrun as <- _. injection Hdata as _ <-.
        apply (apply_limit_bound 100). lia.
      * destruct (apply_skip _ l0) as [l2|?]; [|injection Hrun as <- _; discriminate].
        injection Hrun as <- _. injection Hdata as _ <-.
        apply (apply_limit_bound 100). lia.
  - injection Hrun as <- _. discriminate.
  - injection Hrun as <- _. discriminate.
Qed.

(** C5 (amended).  The query a list request runs.  Without [skip]
    nothing is skipped.  Without [limit] GET /users puts no limit and
    GET /tasks puts the limit 100, so that it answers with at most 100
    documents.  An empty [skip] or [limit] counts as absent.  A [skip] or
    [limit] that is not empty and that [parseInt] reads as no number is not
    applied: nothing is skipped, and no limit is put, on GET /tasks as on
    GET /users. *)
Theorem list_skip_and_limit (q : ListParams) (cond srt sel : Json) :
  (qp_skip q = None \/ qp_skip q = Some EmptyString ->
   q_skip (users_query q cond srt sel) = None /\
   q_skip (tasks_query q cond srt sel) = None) /\
  (qp_limit q = None \/ qp_limit q = Some EmptyString ->
   q_limit (users_query q cond srt sel) = None /\
   q_limit (tasks_query q cond srt sel) = Some 100 /\
   forall (w w' : World) (r : Response) (s : option Json) (l : list (Doc Task)),
     qp_limit q = None ->
     get_tasks q w = (Ret r, w') -> data r = DTasks s l -> (length l <= 100)%nat) /\
  (forall s : string,
     qp_skip q = Some s -> s <> EmptyString -> parseInt s = None ->
     q_skip (users_query q cond srt sel) = None /\
     q_skip (tasks_query q cond srt sel) = None) /\
  (forall s : string,
     qp_limit q = Some s -> s <> EmptyString -> parseInt s = None ->
     q_limit (users_query q cond srt sel) = None /\
     q_limit (tasks_query q cond srt sel) = None).
Proof.
  assert (Hnan : forall (p : option string) (s : string) (dflt : Z),
             p = Some s -> s <> EmptyString -> parseInt s = None ->
             int_param p dflt = None).
  { intros p s dflt -> Hne Hnan. unfold int_param.
    destruct s; [contradiction|]. cbn [truthy_string]. exact Hnan. }
  unfold users_query, tasks_query. rewrite !build_query_limit, !build_query_skip.
  split; [|split; [|split]].
  - intros [-> | ->]; split; reflexivity.
  - intros Hlim. split; [|split].
    + destruct Hlim as [-> | ->]; reflexivity.
    + destruct Hlim as [-> | ->]; reflexivity.
    + intros w w' r s l. apply get_tasks_default_limit.
  - intros s Hs Hne Hp. rewrite !(Hnan _ s _ Hs Hne Hp). split; reflexivity.
  - intros s Hs Hne Hp. rewrite !(Hnan _ s _ Hs Hne Hp). split; reflexivity.
Qed.

End ListRoutes.

(* ===================================================================== *)
(** * PUT /users/:id and POST /users *)
(* ===================================================================== *)

Section WriteUser.
Context {H : Host}.

(** C9.  PUT /users/:id issues one call, the update of the User named;
    whatever the body holds ([pendingTasks] included) and whatever the
    outcome, every Task and every other User is as before. *)
Theorem put_user_touches_one_user (w : World) (id : string) (body : UserBody) :
  let w' := snd (put_users_id id body w) in
  oplog w' = oplog w ++ [OpUserFindByIdAndUpdate id (USet body)] /\
  tasks w' = tasks w /\
  forall k : string, k <> id -> users w' !! k = users w !! k.
Proof.
  cbn zeta. unfold put_users_id, User_findByIdAndUpdate.
  unfold mbind, Js_bind, bind, try_catch, issue, cast_id, get_world, raise_if,
    put_users, ret, throw.
  destruct (isObjectId id); cbn; [|auto].
  destruct (validate_user_body body) as [e|]; cbn.
  { destruct (is_duplicate_key e), (is_named "ValidationError" e); cbn; auto. }
  destruct (users w !! id) as [u|]; cbn; [|auto].
  match goal with |- context [if ?c then _ else _] => destruct c end; cbn; [auto|].
  repeat split. intros k Hk. apply lookup_insert_ne. congruence.
Qed.

(** POST /users with the required fields. *)
Lemma post_users_run (w : World) (body : UserBody) :
  truthy_param (ub_name body) = true ->
  truthy_param (ub_email body) = true ->
  let id := oid_of_nat (next_oid w) in
  let d := user_of_body body (id, mkUser EmptyString EmptyString [] (clock w)) in
  let w1 := logged (OpUserSave d)
              (mkWorld (users w) (tasks w) (oplog w) (S (next_oid w)) (clock w)) in
  post_users body w =
  if bool_decide (is_Some (users w !! id)) || email_taken (u_email (fields d)) id (users w)
  then (Ret (response 400 "Email already exists." DEmpty), w1)
  else (Ret (response 201 "User created!" (DUser None d)),
        with_users (<[id := fields d]> (users w)) w1).
Proof.
  intros Hname Hmail. cbn zeta.
  destruct (truthy_param_some _ Hname) as (a & n & Hn).
  destruct (truthy_param_some _ Hmail) as (a' & m & Hm).
  unfold post_users, User_new, User_save.
  unfold mbind, Js_bind, bind, try_catch, fresh_oid, issue, get_world, raise_if,
    put_users, ret, throw.
  rewrite Hname, Hmail. cbn.
  unfold user_of_body, validate_user, validate_user_body. rewrite Hn, Hm.
  destruct (ub_pendingTasks body) as [l|]; cbn;
    match goal with |- context [if ?c then _ else _] => destruct c end; reflexivity.
Qed.

(** C10.  POST /users answered with 201 on a body that holds a
    [pendingTasks] array: the User created has exactly that array as its
    [pendingTasks]; the one call issued is the save of the User, so that no
    Task is read or written.  And there is a request that takes a state in
    which the invariant of the data model holds to one in which it does
    not. *)
Theorem post_user_keeps_pending_verbatim :
  (forall (w w' : World) (body : UserBody) (l : list string) (r : Response),
     ub_pendingTasks body = Some l ->
     post_users body w = (Ret r, w') ->
     status r = 201 ->
     exists (id : string) (u : User),
       data r = DUser None (id, u) /\
       u_pendingTasks u = l /\
       users w' = <[id := u]> (users w) /\
       tasks w' = tasks w /\
       oplog w' = oplog w ++ [OpUserSave (id, u)]) /\
  (exists (w : World) (body : UserBody),
     mirror_invariant w /\
     (exists r, fst (post_users body w) = Ret r /\ status r = 201) /\
     ~ mirror_invariant (snd (post_users body w))).
Proof.
  split.
  - intros w w' body l r Hl Hrun Hst.
    destruct (truthy_param (ub_name body)) eqn:Hname;
      [destruct (truthy_param (ub_email body)) eqn:Hmail|].
    + rewrite (post_users_run w body Hname Hmail) in Hrun. cbn zeta in Hrun.
      assert (Hd : exists u, user_of_body body
                     (oid_of_nat (next_oid w), mkUser EmptyString EmptyString [] (clock w))
                     = (oid_of_nat (next_oid w), u) /\ u_pendingTasks u = l).
      { unfold user_of_body. rewrite Hl. cbn. eexists. split; reflexivity. }
      destruct Hd as (u & Hd & Hpending). rewrite Hd in Hrun.
      match type of Hrun with (if ?c then _ else _) = _ => destruct c end;
        injection Hrun as <- <-; [discriminate|].
      exists (oid_of_nat (next_oid w)), u. cbn. repeat split. exact Hpending.
    + exfalso. unfold post_users, mbind, Js_bind, bind, try_catch, ret in Hrun.
      rewrite Hname, Hmail in Hrun. cbn in Hrun. injection Hrun as <- _. discriminate.
    + exfalso. unfold post_users, mbind, Js_bind, bind, try_catch, ret in Hrun.
      rewrite Hname in Hrun. cbn in Hrun. injection Hrun as <- _. discriminate.
  - exists empty_world, cy_with_pending. split; [|split].
    + intros uid u tid Hu. cbn in Hu. rewrite lookup_empty in Hu. discriminate.
    + eexists. split; [vm_compute; reflexivity | reflexivity].
    + intros Hinv.
      specialize (Hinv (oid_of_nat 0) (mkUser "Cy" "cy@example.org" [tid1] 0) tid1).
      destruct Hinv as [Hin _].
      * unfold post_users, User_new, User_save, mbind, Js_bind, bind, try_catch,
          fresh_oid, issue, get_world, raise_if, put_users, ret. cbn.
        apply lookup_insert_eq.
      * destruct Hin as (t & Ht & _); [apply list_elem_of_here|].
        unfold post_users, User_new, User_save, mbind, Js_bind, bind, try_catch,
          fresh_oid, issue, get_world, raise_if, put_users, ret in Ht. cbn in Ht.
        rewrite lookup_empty in Ht. discriminate.
Qed.

End WriteUser.

(* ===================================================================== *)
(** * Requests that are refused before the store is called *)
(* ===================================================================== *)

Section Refusals.
Context {H : Host}.

(** POST /users without a name or without an email (absent or empty):
    400, and the state is as before: nothing is stored, no call is made
    and no identifier is drawn. *)
Theorem post_users_missing_field (w : World) (body : UserBody) :
  truthy_param (ub_name body) = false \/ truthy_param (ub_email body) = false ->
  post_users body w =
    (Ret (response 400 "Validation Error: 'name' and 'email' are required fields." DEmpty),
     w).
Proof.
  intros Hmiss. unfold post_users, try_catch, ret.
  destruct Hmiss as [-> | ->]; [|rewrite orb_true_r]; reflexivity.
Qed.

(** POST /tasks without a name (absent or empty) or without a deadline
    (absent or zero): 400, and the state is as before. *)
Theorem post_tasks_missing_field (w : World) (body : TaskBody) :
  truthy_param (tb_name body) = false \/ truthy_date (tb_deadline body) = false ->
  post_tasks body w =
    (Ret (response 400 "Validation Error: 'name' and 'deadline' are required fields." DEmpty),
     w).
Proof.
  intros Hmiss. unfold post_tasks, try_catch, ret.
  destruct Hmiss as [-> | ->]; [|rewrite orb_true_r]; reflexivity.
Qed.

Lemma email_taken_true (email self : string) (m : gmap string User)
    (k : string) (u : User) :
  m !! k = Some u -> u_email u = email -> k <> self ->
  email_taken email self m = true.
Proof.
  intros Hk Hmail Hne. unfold email_taken. apply existsb_exists.
  exists (k, u). split.
  - apply list_elem_of_In, elem_of_map_to_list. exact Hk.
  - cbn. rewrite Hmail, String.eqb_refl. cbn.
    destruct (String.eqb_spec k self); [contradiction | reflexivity].
Qed.

(** POST /users with the email of a stored User: 400 "Email already
    exists.", and both collections are as before. *)
Theorem post_users_duplicate_email (w : World) (body : UserBody)
    (k : string) (u : User) (email : string) :
  truthy_param (ub_name body) = true ->
  ub_email body = Some email ->
  email <> EmptyString ->
  users w !! k = Some u ->
  u_email u = email ->
  exists w',
    post_users body w = (Ret (response 400 "Email already exists." DEmpty), w') /\
    users w' = users w /\ tasks w' = tasks w.
Proof.
  intros Hname Hbody Hne Hk Hmail.
  assert (Htruthy : truthy_param (ub_email body) = true).
  { rewrite Hbody. destruct email; [contradiction | reflexivity]. }
  rewrite (post_users_run w body Hname Htruthy). cbn zeta.
  assert (Hsame : u_email (fields (user_of_body body
                     (oid_of_nat (next_oid w), mkUser EmptyString EmptyString [] (clock w))))
                  = email).
  { unfold user_of_body. rewrite Hbody. destruct (ub_pendingTasks body); reflexivity. }
  rewrite Hsame.
  destruct (decide (k = oid_of_nat (next_oid w))) as [->|Hfresh].
  - rewrite bool_decide_eq_true_2 by eauto. cbn. eexists. repeat split.
  - rewrite (email_taken_true email _ _ k u Hk Hmail Hfresh), orb_true_r.
    eexists. repeat split.
Qed.

Lemma parse_select_unparsable (p : option string) (w : World) :
  unparsable p -> parse_select p w = (Ret None, w).
Proof.
  intros Hbad. unfold parse_select, mbind, Js_bind, bind, try_catch.
  rewrite (json_param_unparsable p w Hbad). reflexivity.
Qed.

(** GET /users/:id and GET /tasks/:id with a [select] that is not empty
    and no JSON text: 400 and no call to the store, whatever the
    identifier. *)
Theorem get_by_id_unparsable_select (w : World) (id : string) (p : option string) :
  unparsable p ->
  get_users_id id p w =
    (Ret (response 400 "Bad Request: Invalid JSON in 'select' query parameter." DEmpty), w) /\
  get_tasks_id id p w =
    (Ret (response 400 "Bad Request: Invalid JSON in 'select' query parameter." DEmpty), w).
Proof.
  intros Hbad. unfold get_users_id, get_tasks_id, mbind, Js_bind, bind, try_catch.
  rewrite (parse_select_unparsable p w Hbad). split; reflexivity.
Qed.

End Refusals.

(* ===================================================================== *)
(** * The read routes *)
(* ===================================================================== *)

Section Reads.
Context {H : Host}.

Lemma parse_list_params_pure (q : ListParams) (w : World) :
  exists o, parse_list_params q w = (Ret o, w).
Proof.
  unfold parse_list_params, mbind, Js_bind, bind, try_catch, ret.
  destruct (json_param_pure (qp_where q) w) as [[j1|e1] E1]; rewrite E1; [|eauto].
  destruct (json_param_pure (qp_sort q) w) as [[j2|e2] E2]; rewrite E2; [|eauto].
  destruct (json_param_pure (qp_select q) w) as [[j3|e3] E3]; rewrite E3; eauto.
Qed.

Lemma parse_select_pure (p : option string) (w : World) :
  exists o, parse_select p w = (Ret o, w).
Proof.
  unfold parse_select, mbind, Js_bind, bind, try_catch, ret.
  destruct (json_param_pure p w) as [[j|e] E]; rewrite E; eauto.
Qed.

Lemma same_documents_refl (w : World) : same_documents w w.
Proof. repeat split. Qed.

Lemma same_documents_logged (op : StoreOp) (w : World) : same_documents w (logged op w).
Proof. repeat split. Qed.

(** The four GET handlers leave every User and every Task as it is,
    whatever the request and whatever the answer. *)
Theorem reads_change_no_document (w : World) (q : ListParams) (id : string)
    (p : option string) :
  same_documents w (snd (get_users q w)) /\
  same_documents w (snd (get_tasks q w)) /\
  same_documents w (snd (get_users_id id p w)) /\
  same_documents w (snd (get_tasks_id id p w)).
Proof.
  split; [|split; [|split]].
  - unfold get_users, mbind, Js_bind. unfold bind at 1. unfold try_catch.
    destruct (parse_list_params_pure q w) as [[[[cond srt] sel]|] ->];
      [|apply same_documents_refl].
    destruct (count_param (qp_count q)).
    + unfold User_countDocuments, mbind, Js_bind, bind, issue, get_world, lift, ret.
      cbn [users logged].
      destruct (match_users cond (users w)); cbn;
        [|destruct (is_named "CastError" _)]; apply same_documents_logged.
    + unfold User_exec, mbind, Js_bind, bind, issue, get_world, lift, ret.
      cbn [users logged].
      destruct (match_users _ (users w)) as [l|e]; cbn;
        [|destruct (is_named "CastError" e); apply same_documents_logged].
      destruct (q_sort _) as [so|]; cbn;
        [destruct (sort_users so l) as [l1|e]; cbn;
           [|destruct (is_named "CastError" e); apply same_documents_logged]|];
        (destruct (apply_skip _ _) as [l2|e]; cbn;
           [|destruct (is_named "CastError" e)]; apply same_documents_logged).
  - unfold get_tasks, mbind, Js_bind. unfold bind at 1. unfold try_catch.
    destruct (parse_list_params_pure q w) as [[[[cond srt] sel]|] ->];
      [|apply same_documents_refl].
    destruct (count_param (qp_count q)).
    + unfold Task_countDocuments, mbind, Js_bind, bind, issue, get_world, lift, ret.
      cbn [tasks logged].
      destruct (match_tasks cond (tasks w)); cbn; apply same_documents_logged.
    + unfold Task_exec, mbind, Js_bind, bind, issue, get_world, lift, ret.
      cbn [tasks logged].
      destruct (match_tasks _ (tasks w)) as [l|e]; cbn; [|apply same_documents_logged].
      destruct (q_sort _) as [so|]; cbn;
        [destruct (sort_tasks so l) as [l1|e]; cbn; [|apply same_documents_logged]|];
        (destruct (apply_skip _ _) as [l2|e]; cbn; apply same_documents_logged).
  - unfold get_users_id, mbind, Js_bind. unfold bind at 1. unfold try_catch.
    destruct (parse_select_pure p w) as [[sel|] ->]; [|apply same_documents_refl].
    unfold select_if_keys, User_findById, mbind, Js_bind, bind, issue, cast_id,
      get_world, ret, throw.
    destruct (keys_length sel) as [n|]; cbn; [|apply same_documents_refl].
    destruct (isObjectId id); cbn; [|apply same_documents_logged].
    destruct (users w !! id); cbn; apply same_documents_logged.
  - unfold get_tasks_id, mbind, Js_bind. unfold bind at 1. unfold try_catch.
    destruct (parse_select_pure p w) as [[sel|] ->]; [|apply same_documents_refl].
    unfold select_if_keys, Task_findById, mbind, Js_bind, bind, issue, cast_id,
      get_world, ret, throw.
    destruct (keys_length sel) as [n|]; cbn; [|apply same_documents_refl].
    destruct (isObjectId id); cbn; [|apply same_documents_logged].
    destruct (tasks w !! id); cbn; apply same_documents_logged.
Qed.

(** GET /users/:id and GET /tasks/:id with an identifier and no [select]:
    one [findById]; 200 with the stored document when there is one, 404
    with the message of the resource when there is none. *)
Theorem get_by_id_found_or_404 (w : World) (id : string) :
  isObjectId id = true ->
  get_users_id id None w =
    (Ret (match users w !! id with
          | Some u => response 200 "OK" (DUser None (id, u))
          | None => response 404 "User not found." DEmpty
          end), logged (OpUserFindById id None) w) /\
  get_tasks_id id None w =
    (Ret (match tasks w !! id with
          | Some t => response 200 "OK" (DTask None (id, t))
          | None => response 404 "Task not found." DEmpty
          end), logged (OpTaskFindById id None) w).
Proof.
  intros Hid. split.
  - unfold get_users_id, select_if_keys, User_findById.
    unfold mbind, Js_bind, bind, try_catch. rewrite parse_select_absent.
    rewrite keys_empty_object. cbn. unfold cast_id. rewrite Hid. cbn.
    destruct (users w !! id); reflexivity.
  - unfold get_tasks_id, select_if_keys, Task_findById.
    unfold mbind, Js_bind, bind, try_catch. rewrite parse_select_absent.
    rewrite keys_empty_object. cbn. unfold cast_id. rewrite Hid. cbn.
    destruct (tasks w !! id); reflexivity.
Qed.

(** With [count=true] the answer of a list route does not depend on
    [skip] and [limit], and never carries documents. *)
Theorem count_ignores_paging (w : World) (q : ListParams) (skp lim : option string) :
  count_param (qp_count q) = true ->
  get_users (with_paging skp lim q) w = get_users q w /\
  get_tasks (with_paging skp lim q) w = get_tasks q w /\
  documents (fst (get_users q w)) = None /\
  documents (fst (get_tasks q w)) = None.
Proof.
  intros Hcount. split; [|split; [|split]].
  - unfold get_users. cbn [qp_count with_paging]. rewrite Hcount. reflexivity.
  - unfold get_tasks. cbn [qp_count with_paging]. rewrite Hcount. reflexivity.
  - unfold get_users, mbind, Js_bind. unfold bind at 1. unfold try_catch.
    rewrite Hcount.
    destruct (parse_list_params_pure q w) as [[[[cond srt] sel]|] ->]; [|reflexivity].
    unfold User_countDocuments, mbind, Js_bind, bind, issue, get_world, lift, ret.
    cbn [users logged].
    destruct (match_users cond (users w)); cbn;
      [|destruct (is_named "CastError" _)]; reflexivity.
  - unfold get_tasks, mbind, Js_bind. unfold bind at 1. unfold try_catch.
    rewrite Hcount.
    destruct (parse_list_params_pure q w) as [[[[cond srt] sel]|] ->]; [|reflexivity].
    unfold Task_countDocuments, mbind, Js_bind, bind, issue, get_world, lift, ret.
    cbn [tasks logged].
    destruct (match_tasks cond (tasks w)); reflexivity.
Qed.

End Reads.

(* ===================================================================== *)
(** * Edges of the write routes *)
(* ===================================================================== *)

Section WriteEdges.
Context {H : Host}.

(** PUT /users/:id with an identifier and a body that passes the
    validators. *)
Lemma put_users_id_run (w : World) (id : string) (body : UserBody) :
  isObjectId id = true ->
  validate_user_body body = None ->
  let w1 := logged (OpUserFindByIdAndUpdate id (USet body)) w in
  put_users_id id body w =
  match users w !! id with
  | None => (Ret (response 404 "User not found." DEmpty), w1)
  | Some u =>
      let u' := set_user body u in
      if negb (String.eqb (u_email u') (u_email u)) && email_taken (u_email u') id (users w)
      then (Ret (response 400 "Email already exists." DEmpty), w1)
      else (Ret (response 200 "User updated!" (DUser None (id, u'))),
            with_users (<[id := u']> (users w)) w1)
  end.
Proof.
  intros Hid Hvalid. cbn zeta. unfold put_users_id, User_findByIdAndUpdate.
  unfold mbind, Js_bind, bind, try_catch, issue, cast_id, get_world, raise_if,
    put_users, ret, throw.
  rewrite Hid. cbn. rewrite Hvalid. cbn.
  destruct (users w !! id) as [u|]; cbn; [|reflexivity].
  match goal with |- context [if ?c then _ else _] => destruct c end; reflexivity.
Qed.


(** PUT /users/:id that sets the email another User holds: 400 "Email
    already exists.", and no document changes. *)
Theorem put_user_email_clash (w : World) (id k : string) (body : UserBody)
    (u other : User) (email : string) :
  isObjectId id = true ->
  validate_user_body body = None ->
  users w !! id = Some u ->
  ub_email body = Some email ->
  u_email u <> email ->
  users w !! k = Some other ->
  u_email other = email ->
  exists w',
    put_users_id id body w = (Ret (response 400 "Email already exists." DEmpty), w') /\
    same_documents w w'.
Proof.
  intros Hid Hvalid Hu Hbody Hnew Hk Hother.
  rewrite (put_users_id_run w id body Hid Hvalid). cbn zeta. rewrite Hu.
  assert (Hset : u_email (set_user body u) = email)
    by (unfold set_user; rewrite Hbody; reflexivity).
  rewrite Hset.
  assert (Hne : k <> id) by (intros ->; congruence).
  rewrite (email_taken_true email id _ k other Hk Hother Hne).
  destruct (String.eqb_spec email (u_email u)) as [E|_]; [congruence|].
  eexists. split; [reflexivity|]. repeat split.
Qed.

(** PUT /users/:id that is refused: a text that is no identifier gives
    500 "Server error." (the CastError has no case of its own here), and
    an identifier with an empty name or email in the body gives 400 with
    the message of the validator; in both cases no document changes. *)
Theorem put_user_refused (w : World) (id : string) (body : UserBody) :
  (isObjectId id = false ->
   put_users_id id body w =
     (Ret (response 500 "Server error." DEmpty),
      logged (OpUserFindByIdAndUpdate id (USet body)) w)) /\
  (forall e : JsError,
     isObjectId id = true ->
     validate_user_body body = Some e ->
     put_users_id id body w =
       (Ret (response 400 ("Validation Error: " +:+ err_message e) DEmpty),
        logged (OpUserFindByIdAndUpdate id (USet body)) w)).
Proof.
  split.
  - intros Hid. unfold put_users_id, User_findByIdAndUpdate.
    unfold mbind, Js_bind, bind, try_catch, issue, cast_id, ret, throw.
    rewrite Hid. reflexivity.
  - intros e Hid Hbad. unfold put_users_id, User_findByIdAndUpdate.
    unfold mbind, Js_bind, bind, try_catch, issue, cast_id, raise_if, ret, throw.
    rewrite Hid. cbn. rewrite Hbad. cbn.
    assert (He : is_duplicate_key e = false /\ is_named "ValidationError" e = true).
    { unfold validate_user_body in Hbad.
      destruct (ub_name body) as [[|]|], (ub_email body) as [[|]|];
        try discriminate; injection Hbad as <-; split; reflexivity. }
    destruct He as [-> ->]. reflexivity.
Qed.

(** DELETE /users/:id, the cases without a cascade: a text that is no
    identifier gives 500; an identifier no User has gives 404 and changes
    no document; a User whose [pendingTasks] is empty is removed with a
    single call, no call on Tasks is issued, and the answer is 200. *)
Theorem delete_user_without_cascade (w : World) (id : string) :
  (isObjectId id = false ->
   delete_users_id id w =
     (Ret (response 500 ("Server error: " +:+ err_message (CastError id)) DEmpty),
      logged (OpUserFindByIdAndDelete id) w)) /\
  (isObjectId id = true -> users w !! id = None ->
   exists w',
     delete_users_id id w = (Ret (response 404 "User not found." DEmpty), w') /\
     same_documents w w') /\
  (forall u : User,
     isObjectId id = true -> users w !! id = Some u -> u_pendingTasks u = [] ->
     exists w',
       delete_users_id id w =
         (Ret (response 200 "User deleted! All associated tasks have been unassigned."
                 (DUser None (id, u))), w') /\
       users w' = delete id (users w) /\
       tasks w' = tasks w /\
       oplog w' = oplog w ++ [OpUserFindByIdAndDelete id]).
Proof.
  split; [|split].
  - intros Hid. unfold delete_users_id, User_findByIdAndDelete.
    unfold mbind, Js_bind, bind, try_catch, issue, cast_id, ret, throw.
    rewrite Hid. reflexivity.
  - intros Hid Hnone. unfold delete_users_id, User_findByIdAndDelete.
    unfold mbind, Js_bind, bind, try_catch, issue, cast_id, get_world, put_users, ret.
    rewrite Hid. cbn. rewrite Hnone. eexists. split; [reflexivity|].
    repeat split. cbn. apply delete_id. exact Hnone.
  - intros u Hid Hu Hempty. unfold delete_users_id, User_findByIdAndDelete.
    unfold mbind, Js_bind, bind, try_catch, issue, cast_id, get_world, put_users, ret.
    rewrite Hid. cbn. rewrite Hu. cbn. rewrite Hempty. cbn.
    eexists. split; [reflexivity|]. repeat split.
Qed.

(** PUT /tasks/:id that changes nothing: a text that is no identifier
    gives 500 "Server error."; an identifier no Task has gives 404 after
    the one [findById]; a body with an empty name on a Task that exists
    gives 400 with the message of the validator.  In the three cases no
    document changes and no call on Users is issued. *)
Theorem put_task_refused (w : World) (taskId : string) (body : TaskBody) :
  (isObjectId taskId = false ->
   put_tasks_id taskId body w =
     (Ret (response 500 "Server error." DEmpty), logged (OpTaskFindById taskId None) w)) /\
  (isObjectId taskId = true -> tasks w !! taskId = None ->
   put_tasks_id taskId body w =
     (Ret (response 404 "Task not found." DEmpty), logged (OpTaskFindById taskId None) w)) /\
  (forall (old : Task) (e : JsError),
     isObjectId taskId = true -> tasks w !! taskId = Some old ->
     validate_task_body body = Some e ->
     put_tasks_id taskId body w =
       (Ret (response 400 ("Validation Error: " +:+ err_message e) DEmpty),
        logged (OpTaskFindByIdAndUpdate taskId body)
          (logged (OpTaskFindById taskId None) w))).
Proof.
  split; [|split].
  - intros Hid. unfold put_tasks_id, Task_findById.
    unfold mbind, Js_bind, bind, try_catch, issue, cast_id, ret, throw.
    rewrite Hid. reflexivity.
  - intros Hid Hnone. unfold put_tasks_id, Task_findById.
    unfold mbind, Js_bind, bind, try_catch, issue, cast_id, get_world, ret.
    rewrite Hid. cbn. rewrite Hnone. reflexivity.
  - intros old e Hid Hold Hbad.
    rewrite (put_tasks_id_found w taskId body old Hold Hid). cbn zeta.
    rewrite Hbad. reflexivity.
Qed.

End WriteEdges.

(* ===================================================================== *)
(** * The mirror between [pendingTasks] and the Tasks *)
(* ===================================================================== *)

Section Mirror.
Context {H : Host}.

Lemma elem_of_push (t x : string) (u : User) :
  x ∈ u_pendingTasks (push_pending t u) <-> x ∈ u_pendingTasks u \/ x = t.
Proof.
  unfold push_pending; cbn. rewrite elem_of_app, list_elem_of_singleton. tauto.
Qed.

Lemma elem_of_pull (t x : string) (u : User) :
  x ∈ u_pendingTasks (pull_pending t u) <-> x ∈ u_pendingTasks u /\ x <> t.
Proof.
  unfold pull_pending; cbn. rewrite !list_elem_of_In, filter_In.
  destruct (String.eqb_spec x t); cbn; intuition congruence.
Qed.

(** Membership in the list of the User under [k] after one accepted
    write. *)
Lemma write_membership (x : PendingWrite) (m : gmap string User) (k : string) (u' : User) :
  isObjectId (write_target x) = true ->
  write_user (write_target x) (write_update x) m !! k = Some u' ->
  exists u, m !! k = Some u /\
    forall t : string,
      t ∈ u_pendingTasks u' <->
      match x with
      | Remove tk usr =>
          if decide (usr = k) then t ∈ u_pendingTasks u /\ t <> tk
          else t ∈ u_pendingTasks u
      | Add tk usr =>
          if decide (usr = k) then t ∈ u_pendingTasks u \/ t = tk
          else t ∈ u_pendingTasks u
      end.
Proof.
  intros Hok. unfold write_user. rewrite Hok, lookup_alter.
  destruct x as [tk usr|tk usr]; cbn [write_target write_update apply_user_update];
    case_decide as Hk.
  - subst k. destruct (m !! usr) as [u|] eqn:Hu; cbn; [|discriminate].
    intros [= <-]. exists u. split; [reflexivity|]. intros t. apply elem_of_pull.
  - intros Hu. exists u'. split; [exact Hu|]. tauto.
  - subst k. destruct (m !! usr) as [u|] eqn:Hu; cbn; [|discriminate].
    intros [= <-]. exists u. split; [reflexivity|]. intros t. apply elem_of_push.
  - intros Hu. exists u'. split; [exact Hu|]. tauto.
Qed.

Lemma first_malformed_accepts (ids : list string) :
  first_malformed ids = None -> Forall (fun id => isObjectId id = true) ids.
Proof.
  induction ids as [|id rest IH]; cbn; [constructor|].
  destruct (isObjectId id) eqn:Hid; [|discriminate].
  intros Hrest. constructor; auto.
Qed.

Lemma issued_accepted (xs : list PendingWrite) :
  first_malformed (map write_target xs) = None -> issued xs = xs.
Proof.
  induction xs as [|x rest IH]; cbn; [reflexivity|].
  destruct (isObjectId (write_target x)); [|discriminate].
  intros Hrest. f_equal. auto.
Qed.

(** What a POST /tasks answered with 201 has done. *)
Lemma post_tasks_created (w w' : World) (body : TaskBody) (r : Response) :
  post_tasks body w = (Ret r, w') ->
  status r = 201 ->
  let d := new_task body w in
  tasks w !! _id d = None /\
  tasks w' = <[_id d := fields d]> (tasks w) /\
  users w' = (if push_due d
              then alter (push_pending (_id d)) (t_assignedUser (fields d)) (users w)
              else users w) /\
  (push_due d = true -> isObjectId (t_assignedUser (fields d)) = true).
Proof.
  intros Hrun Hst. cbn zeta.
  destruct (truthy_param (tb_name body)) eqn:Hname;
    [destruct (truthy_date (tb_deadline body)) eqn:Hdead|].
  - rewrite (post_tasks_run w body Hname Hdead) in Hrun. cbn zeta in Hrun.
    generalize dependent (new_task body w). intros d Hrun.
    case_bool_decide as Hin; [injection Hrun as <- <-; discriminate|].
    assert (Hfresh : tasks w !! _id d = None).
    { destruct (tasks w !! _id d) eqn:E; [|reflexivity]. destruct Hin. eauto. }
    destruct (push_due d).
    + destruct (isObjectId (t_assignedUser (fields d))) eqn:Hoid;
        injection Hrun as <- <-; [|discriminate].
      unfold write_user. rewrite Hoid. cbn. auto.
    + injection Hrun as <- <-. cbn. repeat split; auto. discriminate.
  - exfalso. rewrite post_tasks_missing_field_run in Hrun by auto.
    injection Hrun as <- _. discriminate.
  - exfalso. rewrite post_tasks_missing_field_run in Hrun by auto.
    injection Hrun as <- _. discriminate.
Qed.

(** POST /tasks answered with 201 keeps the mirror: if before the request
    every User's [pendingTasks] held exactly the Tasks assigned to the User
    and not completed, it does so after it. *)
Theorem post_tasks_keeps_mirror (w w' : World) (body : TaskBody) (r : Response) :
  mirror_invariant w ->
  user_ids_well_formed w ->
  post_tasks body w = (Ret r, w') ->
  status r = 201 ->
  mirror_invariant w' /\ user_ids_well_formed w'.
Proof.
  intros Hinv Hwf Hrun Hst.
  destruct (post_tasks_created w w' body r Hrun Hst) as (Hfresh & Htasks & Husers & _).
  generalize dependent (new_task body w). intros [id t0]; cbn [_id fields fst snd].
  intros Hfresh Htasks Husers.
  assert (Hstale : forall uid u, users w !! uid = Some u -> id ∉ u_pendingTasks u).
  { intros uid u Hu Hin. apply (Hinv uid u id Hu) in Hin as (t & Ht & _). congruence. }
  unfold push_due in Husers; cbn [fields snd] in Husers.
  destruct (truthy_string (t_assignedUser t0) && negb (t_completed t0)) eqn:Hdue.
  - apply andb_true_iff in Hdue as [Hassigned Hopen].
    apply negb_true_iff in Hopen.
    split.
    + intros uid u' tid Hu'. rewrite Husers, lookup_alter in Hu'. rewrite Htasks.
      case_decide as Huid.
      * subst uid. destruct (users w !! t_assignedUser t0) as [u|] eqn:Hu; [|discriminate].
        injection Hu' as <-. rewrite elem_of_push.
        destruct (decide (tid = id)) as [->|Hne].
        -- rewrite lookup_insert_eq. split; [|auto]. intros _. eauto.
        -- rewrite lookup_insert_ne by congruence. rewrite <- (Hinv _ u tid Hu). tauto.
      * destruct (decide (tid = id)) as [->|Hne].
        -- rewrite lookup_insert_eq. split.
           ++ intros Hin. destruct (Hstale uid u' Hu' Hin).
           ++ intros (t & [= <-] & Hass & _). congruence.
        -- rewrite lookup_insert_ne by congruence. apply (Hinv uid u' tid Hu').
    + intros uid u' Hu'. rewrite Husers, lookup_alter in Hu'.
      case_decide; [subst; destruct (users w !! t_assignedUser t0) eqn:Hu; [|discriminate]|];
        eauto.
  - split; [|intros uid u' Hu'; rewrite Husers in Hu'; eauto].
    intros uid u' tid Hu'. rewrite Husers in Hu'. rewrite Htasks.
    destruct (decide (tid = id)) as [->|Hne].
    + rewrite lookup_insert_eq. split.
      * intros Hin. destruct (Hstale uid u' Hu' Hin).
      * intros (t & [= <-] & Hass & Hopen). exfalso.
        pose proof (Hwf uid u' Hu') as Hoid. rewrite <- Hass in Hoid.
        rewrite Hopen, andb_true_r in Hdue.
        destruct (t_assignedUser t0); [discriminate Hoid | discriminate Hdue].
    + rewrite lookup_insert_ne by congruence. apply (Hinv uid u' tid Hu').
Qed.

(** What a DELETE /tasks/:id answered with 200 has done. *)
Lemma delete_tasks_deleted (w w' : World) (id : string) (r : Response) :
  delete_tasks_id id w = (Ret r, w') ->
  status r = 200 ->
  exists t : Task,
    tasks w !! id = Some t /\
    r = response 200 "Task deleted!" (DTask None (id, t)) /\
    tasks w' = delete id (tasks w) /\
    users w' = (if truthy_string (t_assignedUser t)
                then alter (pull_pending id) (t_assignedUser t) (users w)
                else users w).
Proof.
  intros Hrun Hst.
  destruct (isObjectId id) eqn:Hid.
  - destruct (tasks w !! id) as [t|] eqn:Ht.
    + rewrite (delete_tasks_id_found w id t Ht Hid) in Hrun. cbn zeta in Hrun.
      exists t. split; [reflexivity|].
      destruct (truthy_string (t_assignedUser t)).
      * destruct (isObjectId (t_assignedUser t)) eqn:Hoid;
          injection Hrun as <- <-; [|discriminate].
        unfold write_user. rewrite Hoid. cbn. auto.
      * injection Hrun as <- <-. cbn. auto.
    + exfalso. unfold delete_tasks_id, Task_findByIdAndDelete in Hrun.
      unfold mbind, Js_bind, bind, try_catch, issue, cast_id, get_world, put_tasks, ret
        in Hrun.
      rewrite Hid in Hrun. cbn in Hrun. rewrite Ht in Hrun.
      injection Hrun as <- _. discriminate.
  - exfalso. unfold delete_tasks_id, Task_findByIdAndDelete in Hrun.
    unfold mbind, Js_bind, bind, try_catch, issue, cast_id, ret, throw in Hrun.
    rewrite Hid in Hrun. injection Hrun as <- _. discriminate.
Qed.

(** DELETE /tasks/:id answered with 200 keeps the mirror. *)
Theorem delete_task_keeps_mirror (w w' : World) (id : string) (r : Response) :
  mirror_invariant w ->
  user_ids_well_formed w ->
  delete_tasks_id id w = (Ret r, w') ->
  status r = 200 ->
  mirror_invariant w' /\ user_ids_well_formed w'.
Proof.
  intros Hinv Hwf Hrun Hst.
  destruct (delete_tasks_deleted w w' id r Hrun Hst) as (t0 & Ht0 & _ & Htasks & Husers).
  assert (Hheld : forall uid u, users w !! uid = Some u ->
                    (id ∈ u_pendingTasks u <->
                     t_assignedUser t0 = uid /\ t_completed t0 = false)).
  { intros uid u Hu. rewrite (Hinv uid u id Hu). split.
    - intros (t & Ht & Hrest). congruence.
    - intros Hrest. eauto. }
  destruct (truthy_string (t_assignedUser t0)) eqn:Hassigned.
  - split.
    + intros uid u' tid Hu'. rewrite Husers, lookup_alter in Hu'. rewrite Htasks.
      case_decide as Huid.
      * subst uid. destruct (users w !! t_assignedUser t0) as [u|] eqn:Hu; [|discriminate].
        injection Hu' as <-. rewrite elem_of_pull.
        destruct (decide (tid = id)) as [->|Hne].
        -- rewrite lookup_delete_eq. split; [tauto|]. intros (t & [=] & _).
        -- rewrite lookup_delete_ne by congruence. rewrite <- (Hinv _ u tid Hu). tauto.
      * destruct (decide (tid = id)) as [->|Hne].
        -- rewrite lookup_delete_eq. rewrite (Hheld uid u' Hu'). split.
           ++ intros [? _]. contradiction.
           ++ intros (t & [=] & _).
        -- rewrite lookup_delete_ne by congruence. apply (Hinv uid u' tid Hu').
    + intros uid u' Hu'. rewrite Husers, lookup_alter in Hu'.
      case_decide; [subst; destruct (users w !! t_assignedUser t0) eqn:Hu; [|discriminate]|];
        eauto.
  - split; [|intros uid u' Hu'; rewrite Husers in Hu'; eauto].
    intros uid u' tid Hu'. rewrite Husers in Hu'. rewrite Htasks.
    destruct (decide (tid = id)) as [->|Hne].
    + rewrite lookup_delete_eq. rewrite (Hheld uid u' Hu'). split.
      * intros [Hass _]. pose proof (Hwf uid u' Hu') as Hoid. rewrite <- Hass in Hoid.
        destruct (t_assignedUser t0); discriminate.
      * intros (t & [=] & _).
    + rewrite lookup_delete_ne by congruence. apply (Hinv uid u' tid Hu').
Qed.

(** What a DELETE /users/:id answered with 200 has done. *)
Lemma delete_users_deleted (w w' : World) (id : string) (r : Response) :
  delete_users_id id w = (Ret r, w') ->
  status r = 200 ->
  exists u : User,
    users w !! id = Some u /\
    users w' = delete id (users w) /\
    forall k : string,
      tasks w' !! k =
      (fun t => if bool_decide (k ∈ u_pendingTasks u) then set_task unassign t else t)
        <$> (tasks w !! k).
Proof.
  intros Hrun Hst.
  destruct (isObjectId id) eqn:Hid.
  - destruct (users w !! id) as [u|] eqn:Hu.
    + exists u. split; [reflexivity|].
      destruct (u_pendingTasks u) as [|t0 rest] eqn:Hlist.
      * unfold delete_users_id, User_findByIdAndDelete in Hrun.
        unfold mbind, Js_bind, bind, try_catch, issue, cast_id, get_world, put_users, ret
          in Hrun.
        rewrite Hid in Hrun. cbn in Hrun. rewrite Hu in Hrun. cbn in Hrun.
        rewrite Hlist in Hrun. cbn in Hrun. injection Hrun as <- <-. cbn.
        split; [reflexivity|]. intros k.
        rewrite bool_decide_eq_false_2 by apply not_elem_of_nil.
        destruct (tasks w !! k); reflexivity.
      * assert (Hne : u_pendingTasks u <> []) by (rewrite Hlist; discriminate).
        rewrite (delete_users_id_found w id u Hu Hid Hne) in Hrun. cbn zeta in Hrun.
        rewrite Hlist in Hrun.
        destruct (first_malformed (t0 :: rest)); injection Hrun as <- <-; [discriminate|].
        cbn [users tasks with_tasks with_users logged]. split; [reflexivity|].
        intros k. apply set_many_lookup.
    + exfalso. unfold delete_users_id, User_findByIdAndDelete in Hrun.
      unfold mbind, Js_bind, bind, try_catch, issue, cast_id, get_world, put_users, ret
        in Hrun.
      rewrite Hid in Hrun. cbn in Hrun. rewrite Hu in Hrun.
      injection Hrun as <- _. discriminate.
  - exfalso. unfold delete_users_id, User_findByIdAndDelete in Hrun.
    unfold mbind, Js_bind, bind, try_catch, issue, cast_id, ret, throw in Hrun.
    rewrite Hid in Hrun. injection Hrun as <- _. discriminate.
Qed.

(** DELETE /users/:id answered with 200 keeps the mirror for the Users
    that remain. *)
Theorem delete_user_keeps_mirror (w w' : World) (id : string) (r : Response) :
  mirror_invariant w ->
  user_ids_well_formed w ->
  delete_users_id id w = (Ret r, w') ->
  status r = 200 ->
  mirror_invariant w' /\ user_ids_well_formed w'.
Proof.
  intros Hinv Hwf Hrun Hst.
  destruct (delete_users_deleted w w' id r Hrun Hst) as (gone & Hgone & Husers & Htasks).
  split.
  - intros uid u tid Hu. rewrite Husers, lookup_delete in Hu.
    case_decide as Hne; [discriminate|].
    rewrite (Hinv uid u tid Hu), Htasks.
    case_bool_decide as Hin.
    + apply (Hinv id gone tid Hgone) in Hin as (t & Ht & Hass & Hopen).
      rewrite Ht. cbn. split.
      * intros (t1 & [= <-] & Hass1 & _). congruence.
      * intros (t1 & [= <-] & Hass1 & _). cbn in Hass1.
        pose proof (Hwf uid u Hu) as Hoid. rewrite <- Hass1 in Hoid. discriminate.
    + destruct (tasks w !! tid); cbn; tauto.
  - intros uid u Hu. rewrite Husers, lookup_delete in Hu.
    case_decide; [discriminate|]. eauto.
Qed.

(** What a PUT /tasks/:id answered with 200 has done. *)
Lemma put_tasks_updated (w w' : World) (id : string) (body : TaskBody) (r : Response) :
  put_tasks_id id body w = (Ret r, w') ->
  status r = 200 ->
  exists old : Task,
    tasks w !! id = Some old /\
    let new := set_task body old in
    let writes := reconcile_policy id (t_assignedUser old) (t_assignedUser new)
                    (t_completed old) (t_completed new) in
    Forall (fun x => isObjectId (write_target x) = true) writes /\
    tasks w' = <[id := new]> (tasks w) /\
    users w' = apply_writes writes (users w).
Proof.
  intros Hrun Hst.
  destruct (isObjectId id) eqn:Hid.
  - destruct (tasks w !! id) as [old|] eqn:Hold.
    + exists old. split; [reflexivity|]. cbn zeta.
      rewrite (put_tasks_id_found w id body old Hold Hid) in Hrun. cbn zeta in Hrun.
      destruct (validate_task_body body); [injection Hrun as <- _; discriminate|].
      rewrite run_writes_run in Hrun.
      destruct (first_malformed _) eqn:Hfirst; [injection Hrun as <- _; discriminate|].
      rewrite (issued_accepted _ Hfirst) in Hrun.
      apply first_malformed_accepts in Hfirst. rewrite Forall_map in Hfirst.
      generalize dependent (reconcile_policy id (t_assignedUser old)
                              (t_assignedUser (set_task body old)) (t_completed old)
                              (t_completed (set_task body old))).
      intros writes Hfirst Hrun. injection Hrun as <- <-. cbn. auto.
    + exfalso. unfold put_tasks_id, Task_findById in Hrun.
      unfold mbind, Js_bind, bind, try_catch, issue, cast_id, get_world, ret in Hrun.
      rewrite Hid in Hrun. cbn in Hrun. rewrite Hold in Hrun.
      injection Hrun as <- _. discriminate.
  - exfalso. unfold put_tasks_id, Task_findById in Hrun.
    unfold mbind, Js_bind, bind, try_catch, issue, cast_id, ret, throw in Hrun.
    rewrite Hid in Hrun. injection Hrun as <- _. discriminate.
Qed.

(** One step back through an accepted write, in a hypothesis on the
    collection after it. *)
Ltac undo_write Hu Hmem :=
  let u := fresh "u" in
  match type of Hu with
  | write_user ?usr (UPull ?t) ?m !! _ = Some _ =>
      apply (write_membership (Remove t usr)) in Hu as (u & Hu & Hmem); [|assumption]
  | write_user ?usr (UPush ?t) ?m !! _ = Some _ =>
      apply (write_membership (Add t usr)) in Hu as (u & Hu & Hmem); [|assumption]
  end.

(** PUT /tasks/:id answered with 200 keeps the mirror. *)
Theorem put_task_keeps_mirror (w w' : World) (id : string) (body : TaskBody)
    (r : Response) :
  mirror_invariant w ->
  user_ids_well_formed w ->
  put_tasks_id id body w = (Ret r, w') ->
  status r = 200 ->
  mirror_invariant w' /\ user_ids_well_formed w'.
Proof.
  intros Hinv Hwf Hrun Hst.
  destruct (put_tasks_updated w w' id body r Hrun Hst)
    as (old & Hold & Hok & Htasks & Husers).
  cbn zeta in *.
  set (new := set_task body old) in *.
  set (o := t_assignedUser old) in *. set (n := t_assignedUser new) in *.
  set (was := t_completed old) in *. set (is_ := t_completed new) in *.
  assert (Hheld : forall uid u, users w !! uid = Some u ->
                    (id ∈ u_pendingTasks u <-> o = uid /\ was = false)).
  { intros uid u Hu. rewrite (Hinv uid u id Hu). split.
    - intros (t & Ht & Hrest). rewrite Hold in Ht. injection Ht as <-. exact Hrest.
    - intros Hrest. eauto. }
  assert (Hnow : forall uid : string,
            (exists t, <[id := new]> (tasks w) !! id = Some t /\
                       t_assignedUser t = uid /\ t_completed t = false)
            <-> n = uid /\ is_ = false).
  { intros uid. rewrite lookup_insert_eq. split.
    - intros (t & [= <-] & Hrest). exact Hrest.
    - intros Hrest. eauto. }
  assert (Hempty : forall uid u, users w !! uid = Some u -> uid <> EmptyString).
  { intros uid u Hu ->. apply Hwf in Hu. discriminate. }
  clearbody o n was is_.
  assert (Hback : forall uid u',
            users w' !! uid = Some u' ->
            exists u, users w !! uid = Some u /\
              (forall t, t <> id -> (t ∈ u_pendingTasks u' <-> t ∈ u_pendingTasks u)) /\
              (id ∈ u_pendingTasks u' <-> n = uid /\ is_ = false)).
  { intros uid u' Hu'. rewrite Husers in Hu'. unfold reconcile_policy in Hu', Hok.
    destruct was, is_; repeat case_bool_decide; cbn in Hu', Hok;
      repeat match goal with
             | Hf : Forall _ (_ :: _) |- _ => inversion Hf; subst; clear Hf
             end;
      repeat (let Hmem := fresh "Hmem" in undo_write Hu' Hmem);
      (eexists; split; [exact Hu'|]);
      pose proof (Hheld uid _ Hu') as Hh; pose proof (Hempty uid _ Hu') as He;
      (split; [intros t Ht|]);
      repeat (repeat case_decide;
              match goal with
              | Hm : forall t : string, _ <-> _ |- _ => rewrite Hm; clear Hm
              end);
      repeat case_decide; subst; intuition congruence. }
  split.
  - intros uid u' tid Hu'. destruct (Hback uid u' Hu') as (u & Hu & Hother & Hid).
    rewrite Htasks. destruct (decide (tid = id)) as [->|Hne].
    + rewrite Hnow. exact Hid.
    + rewrite lookup_insert_ne by congruence. rewrite (Hother tid Hne).
      apply (Hinv uid u tid Hu).
  - intros uid u' Hu'. destruct (Hback uid u' Hu') as (u & Hu & _). eauto.
Qed.

End Mirror.

(* ===================================================================== *)
(** * Creating a Task and deleting it again *)
(* ===================================================================== *)

Section RoundTrip.
Context {H : Host}.

Lemma hex_char_is_hex (d : N) : (d < 16)%N -> is_hex_digit (hex_char d) = true.
Proof.
  intros Hd. destruct d as [|p]; [reflexivity|].
  do 4 (destruct p as [p|p|]; try reflexivity); lia.
Qed.

Lemma hex_digits_shape (k : nat) (n : N) (acc : string) :
  all_hex acc = true ->
  String.length (hex_digits k n acc) = (k + String.length acc)%nat /\
  all_hex (hex_digits k n acc) = true.
Proof.
  revert n acc. induction k as [|k IH]; intros n acc Hacc; cbn [hex_digits].
  - auto.
  - destruct (IH (n / 16)%N (String (hex_char (n mod 16)%N) acc)) as [Hlen Hall].
    + cbn [all_hex]. rewrite Hacc, hex_char_is_hex; [reflexivity|].
      apply N.mod_lt. discriminate.
    + split; [|exact Hall]. rewrite Hlen. cbn [String.length]. lia.
Qed.

(** The identifiers the generator draws are identifiers. *)
Lemma oid_of_nat_well_formed (n : nat) : isObjectId (oid_of_nat n) = true.
Proof.
  unfold isObjectId, oid_of_nat.
  destruct (hex_digits_shape 24 (N.of_nat n) EmptyString eq_refl) as [-> ->].
  reflexivity.
Qed.

Lemma pull_absent (t : string) (u : User) :
  t ∉ u_pendingTasks u -> pull_pending t u = u.
Proof.
  destruct u as [name email l created]. unfold pull_pending, with_pendingTasks; cbn.
  intros Hnot. f_equal. induction l as [|x l IH]; [reflexivity|]. cbn.
  destruct (String.eqb_spec x t) as [->|_]; cbn.
  - destruct Hnot. apply list_elem_of_here.
  - f_equal. apply IH. intros Hin. apply Hnot. apply list_elem_of_further. exact Hin.
Qed.

Lemma pull_push (t : string) (u : User) :
  t ∉ u_pendingTasks u -> pull_pending t (push_pending t u) = u.
Proof.
  intros Hnot. rewrite <- (pull_absent t u Hnot) at 2.
  destruct u as [name email l created].
  unfold pull_pending, push_pending, with_pendingTasks; cbn. f_equal.
  rewrite List.filter_app. cbn. rewrite String.eqb_refl. cbn. apply app_nil_r.
Qed.

(** POST /tasks answered with 201, followed by DELETE /tasks/:id of the
    Task just created: when no list held the new identifier before, every
    User and every Task is as before the two requests. *)
Theorem create_then_delete_restores (w w1 : World) (body : TaskBody) (r : Response) :
  post_tasks body w = (Ret r, w1) ->
  status r = 201 ->
  (forall uid u, users w !! uid = Some u -> _id (new_task body w) ∉ u_pendingTasks u) ->
  let w2 := snd (delete_tasks_id (_id (new_task body w)) w1) in
  users w2 = users w /\ tasks w2 = tasks w.
Proof.
  intros Hrun Hst Hstale.
  destruct (post_tasks_created w w1 body r Hrun Hst) as (Hfresh & Htasks & Husers & Hdue).
  assert (Hid : isObjectId (_id (new_task body w)) = true) by apply oid_of_nat_well_formed.
  generalize dependent (new_task body w). intros [id t0]; cbn [_id fields fst snd].
  intros Hstale Hfresh Htasks Husers Hdue Hid.
  assert (Ht0 : tasks w1 !! id = Some t0) by (rewrite Htasks; apply lookup_insert_eq).
  rewrite (delete_tasks_id_found w1 id t0 Ht0 Hid). cbn zeta.
  assert (Hback : delete id (tasks w1) = tasks w).
  { rewrite Htasks. apply delete_insert_id. exact Hfresh. }
  assert (Hpull : forall m : gmap string User,
            (forall uid u, m !! uid = Some u -> id ∉ u_pendingTasks u) ->
            alter (pull_pending id) (t_assignedUser t0) m = m).
  { intros m Hm. apply map_eq. intros k. rewrite lookup_alter.
    case_decide; [subst k|reflexivity].
    destruct (m !! t_assignedUser t0) as [u|] eqn:Hu; [|reflexivity].
    cbn. rewrite (pull_absent id u (Hm _ u Hu)). reflexivity. }
  unfold push_due in Husers, Hdue; cbn [fields snd] in Husers, Hdue.
  destruct (truthy_string (t_assignedUser t0)) eqn:Hassigned; cbn [andb] in Husers, Hdue.
  - destruct (negb (t_completed t0)).
    + rewrite (Hdue eq_refl). cbn. split; [|exact Hback].
      unfold write_user. rewrite (Hdue eq_refl). cbn. rewrite Husers.
      apply map_eq. intros k. rewrite !lookup_alter.
      repeat case_decide; try congruence. subst k.
      destruct (users w !! t_assignedUser t0) as [u|] eqn:Hu; [|reflexivity].
      cbn. rewrite (pull_push id u (Hstale _ u Hu)). reflexivity.
    + destruct (isObjectId (t_assignedUser t0)) eqn:Hoid; cbn.
      * split; [|exact Hback]. unfold write_user. rewrite Hoid. cbn.
        rewrite Husers. apply Hpull. exact Hstale.
      * split; [exact Husers | exact Hback].
  - cbn. split; [exact Husers | exact Hback].
Qed.

(** What a POST /users answered with 201 has done. *)
Lemma post_users_created (w w' : World) (body : UserBody) (r : Response) :
  post_users body w = (Ret r, w') ->
  status r = 201 ->
  exists u : User,
    r = response 201 "User created!" (DUser None (oid_of_nat (next_oid w), u)) /\
    users w !! oid_of_nat (next_oid w) = None /\
    users w' = <[oid_of_nat (next_oid w) := u]> (users w) /\
    tasks w' = tasks w.
Proof.
  intros Hrun Hst.
  destruct (truthy_param (ub_name body)) eqn:Hname;
    [destruct (truthy_param (ub_email body)) eqn:Hmail|].
  - rewrite (post_users_run w body Hname Hmail) in Hrun. cbn zeta in Hrun.
    assert (Hd : exists u, user_of_body body
                   (oid_of_nat (next_oid w), mkUser EmptyString EmptyString [] (clock w))
                   = (oid_of_nat (next_oid w), u)).
    { unfold user_of_body. destruct (truthy_array _); eexists; reflexivity. }
    destruct Hd as (u & Hd). rewrite Hd in Hrun. exists u. clear Hd.
    generalize dependent (oid_of_nat (next_oid w)). intros id Hrun.
    destruct (bool_decide (is_Some (users w !! id))) eqn:Hin;
      cbn [orb] in Hrun; [injection Hrun as <- _; discriminate|].
    apply bool_decide_eq_false in Hin.
    destruct (email_taken _ _ _); injection Hrun as <- <-; [discriminate|].
    cbn. repeat split.
    destruct (users w !! id) eqn:E; [|reflexivity].
    destruct Hin. eauto.
  - exfalso. unfold post_users, try_catch, ret in Hrun.
    rewrite Hname, Hmail in Hrun. injection Hrun as <- _. discriminate.
  - exfalso. unfold post_users, try_catch, ret in Hrun.
    rewrite Hname in Hrun. injection Hrun as <- _. discriminate.
Qed.

Lemma get_users_id_run (w : World) (id : string) :
  isObjectId id = true ->
  get_users_id id None w =
    (Ret (match users w !! id with
          | Some u => response 200 "OK" (DUser None (id, u))
          | None => response 404 "User not found." DEmpty
          end), logged (OpUserFindById id None) w).
Proof.
  intros Hid. unfold get_users_id, select_if_keys, User_findById.
  unfold mbind, Js_bind, bind, try_catch. rewrite parse_select_absent.
  rewrite keys_empty_object. cbn. unfold cast_id. rewrite Hid. cbn.
  destruct (users w !! id); reflexivity.
Qed.

Lemma get_tasks_id_run (w : World) (id : string) :
  isObjectId id = true ->
  get_tasks_id id None w =
    (Ret (match tasks w !! id with
          | Some t => response 200 "OK" (DTask None (id, t))
          | None => response 404 "Task not found." DEmpty
          end), logged (OpTaskFindById id None) w).
Proof.
  intros Hid. unfold get_tasks_id, select_if_keys, Task_findById.
  unfold mbind, Js_bind, bind, try_catch. rewrite parse_select_absent.
  rewrite keys_empty_object. cbn. unfold cast_id. rewrite Hid. cbn.
  destruct (tasks w !! id); reflexivity.
Qed.

(** The document a POST answered with 201 carries is the one a GET by
    its identifier then answers with, for Users and for Tasks. *)
Theorem created_document_is_served :
  (forall (w w' : World) (body : UserBody) (r : Response),
     post_users body w = (Ret r, w') -> status r = 201 ->
     exists d : Doc User,
       data r = DUser None d /\
       fst (get_users_id (_id d) None w') = Ret (response 200 "OK" (DUser None d))) /\
  (forall (w w' : World) (body : TaskBody) (r : Response),
     post_tasks body w = (Ret r, w') -> status r = 201 ->
     exists d : Doc Task,
       data r = DTask None d /\
       fst (get_tasks_id (_id d) None w') = Ret (response 200 "OK" (DTask None d))).
Proof.
  split.
  - intros w w' body r Hrun Hst.
    destruct (post_users_created w w' body r Hrun Hst) as (u & -> & _ & Husers & _).
    eexists. split; [reflexivity|]. cbn [_id fst].
    rewrite (get_users_id_run w' _ (oid_of_nat_well_formed _)).
    rewrite Husers, lookup_insert_eq. reflexivity.
  - intros w w' body r Hrun Hst.
    destruct (post_tasks_created w w' body r Hrun Hst) as (_ & Htasks & _).
    assert (Hdata : data r = DTask None (new_task body w)).
    { destruct (truthy_param (tb_name body)) eqn:Hname;
        [destruct (truthy_date (tb_deadline body)) eqn:Hdead|].
      - rewrite (post_tasks_run w body Hname Hdead) in Hrun. cbn zeta in Hrun.
        clear Htasks. generalize dependent (new_task body w). intros d Hrun.
        repeat match type of Hrun with
               | (if ?c then _ else _) = _ => destruct c
               end; injection Hrun as <- _; first [reflexivity | discriminate].
      - rewrite post_tasks_missing_field_run in Hrun by auto.
        injection Hrun as <- _. discriminate.
      - rewrite post_tasks_missing_field_run in Hrun by auto.
        injection Hrun as <- _. discriminate. }
    exists (new_task body w). split; [exact Hdata|].
    assert (Hkey : isObjectId (_id (new_task body w)) = true)
      by apply oid_of_nat_well_formed.
    rewrite (get_tasks_id_run w' (_id (new_task body w)) Hkey).
    rewrite Htasks, lookup_insert_eq. destruct (new_task body w); reflexivity.
Qed.

Lemma delete_tasks_id_absent (w : World) (id : string) :
  isObjectId id = true -> tasks w !! id = None ->
  fst (delete_tasks_id id w) = Ret (response 404 "Task not found." DEmpty).
Proof.
  intros Hid Hnone. unfold delete_tasks_id, Task_findByIdAndDelete.
  unfold mbind, Js_bind, bind, try_catch, issue, cast_id, get_world, put_tasks, ret.
  rewrite Hid. cbn. rewrite Hnone. reflexivity.
Qed.

Lemma delete_users_id_absent (w : World) (id : string) :
  isObjectId id = true -> users w !! id = None ->
  fst (delete_users_id id w) = Ret (response 404 "User not found." DEmpty).
Proof.
  intros Hid Hnone. unfold delete_users_id, User_findByIdAndDelete.
  unfold mbind, Js_bind, bind, try_catch, issue, cast_id, get_world, put_users, ret.
  rewrite Hid. cbn. rewrite Hnone. reflexivity.
Qed.

Lemma delete_malformed_500 (w : World) (id : string) :
  isObjectId id = false ->
  status_of (fst (delete_tasks_id id w)) = Some 500 /\
  status_of (fst (delete_users_id id w)) = Some 500.
Proof.
  intros Hid. unfold delete_tasks_id, Task_findByIdAndDelete,
    delete_users_id, User_findByIdAndDelete.
  unfold mbind, Js_bind, bind, try_catch, issue, cast_id, ret, throw.
  rewrite Hid. split; reflexivity.
Qed.

(** A DELETE answered with 200, repeated at once, is answered with 404,
    for Tasks and for Users. *)
Theorem delete_twice_is_404 (w w' : World) (id : string) (r : Response) :
  status r = 200 ->
  (delete_tasks_id id w = (Ret r, w') ->
   fst (delete_tasks_id id w') = Ret (response 404 "Task not found." DEmpty)) /\
  (delete_users_id id w = (Ret r, w') ->
   fst (delete_users_id id w') = Ret (response 404 "User not found." DEmpty)).
Proof.
  intros Hst.
  assert (Hid : forall h : string -> Js Response,
            h id w = (Ret r, w') ->
            status_of (fst (h id w)) <> Some 500).
  { intros h Hrun. rewrite Hrun. cbn. rewrite Hst. discriminate. }
  split; intros Hrun.
  - destruct (isObjectId id) eqn:Hoid.
    + destruct (delete_tasks_deleted w w' id r Hrun Hst) as (t & _ & _ & Htasks & _).
      apply delete_tasks_id_absent; [exact Hoid|].
      rewrite Htasks. apply lookup_delete_eq.
    + destruct (Hid _ Hrun). apply (delete_malformed_500 w id Hoid).
  - destruct (isObjectId id) eqn:Hoid.
    + destruct (delete_users_deleted w w' id r Hrun Hst) as (u & _ & Husers & _).
      apply delete_users_id_absent; [exact Hoid|].
      rewrite Husers. apply lookup_delete_eq.
    + destruct (Hid _ Hrun). apply (delete_malformed_500 w id Hoid).
Qed.

End RoundTrip.

(* ===================================================================== *)
(** * Lists: limits and filters the store refuses *)
(* ===================================================================== *)

Section Lists.
Context {H : Host}.

Lemma int_param_parsed (p : option string) (s : string) (dflt : Z) :
  p = Some s -> s <> EmptyString -> int_param p dflt = parseInt s.
Proof. intros -> Hne. destruct s; [contradiction | reflexivity]. Qed.

Lemma User_exec_limited (q : Query) (n : Z) (w w' : World) (l : list (Doc User)) :
  q_limit q = Some n -> 0 < n ->
  User_exec q w = (Ret l, w') -> (length l <= Z.to_nat n)%nat.
Proof.
  intros Hq Hn. unfold User_exec, mbind, Js_bind, bind, issue, get_world, lift, ret.
  rewrite Hq. cbn [users logged].
  destruct (match_users _ _) as [l0|?]; [|discriminate].
  destruct (q_sort q) as [so|].
  - destruct (sort_users so l0) as [l1|?]; [|discriminate].
    destruct (apply_skip _ l1) as [l2|?]; [|discriminate].
    intros [= <- _]. apply apply_limit_bound. exact Hn.
  - destruct (apply_skip _ l0) as [l2|?]; [|discriminate].
    intros [= <- _]. apply apply_limit_bound. exact Hn.
Qed.

Lemma Task_exec_limited (q : Query) (n : Z) (w w' : World) (l : list (Doc Task)) :
  q_limit q = Some n -> 0 < n ->
  Task_exec q w = (Ret l, w') -> (length l <= Z.to_nat n)%nat.
Proof.
  intros Hq Hn. unfold Task_exec, mbind, Js_bind, bind, issue, get_world, lift, ret.
  rewrite Hq. cbn [tasks logged].
  destruct (match_tasks _ _) as [l0|?]; [|discriminate].
  destruct (q_sort q) as [so|].
  - destruct (sort_tasks so l0) as [l1|?]; [|discriminate].
    destruct (apply_skip _ l1) as [l2|?]; [|discriminate].
    intros [= <- _]. apply apply_limit_bound. exact Hn.
  - destruct (apply_skip _ l0) as [l2|?]; [|discriminate].
    intros [= <- _]. apply apply_limit_bound. exact Hn.
Qed.

(** A [limit] that [parseInt] reads as a positive number bounds the
    number of documents a list route answers with, on both resources. *)
Theorem positive_limit_bounds_answer (w : World) (q : ListParams) (s : string)
    (n : Z) (k : nat) :
  qp_limit q = Some s ->
  parseInt s = Some n ->
  0 < n ->
  (documents (fst (get_users q w)) = Some k -> (k <= Z.to_nat n)%nat) /\
  (documents (fst (get_tasks q w)) = Some k -> (k <= Z.to_nat n)%nat).
Proof.
  intros Hs Hparse Hn.
  assert (Hne : s <> EmptyString) by (intros ->; discriminate).
  assert (Hlim : forall (dflt : Z) (cond srt sel : Json),
            q_limit (build_query cond srt sel (int_param (qp_skip q) 0)
                       (int_param (qp_limit q) dflt)) = Some n).
  { intros dflt cond srt sel. rewrite build_query_limit.
    rewrite (int_param_parsed _ s dflt Hs Hne), Hparse.
    destruct (Z.eqb_spec n 0); [lia | reflexivity]. }
  split.
  - unfold get_users, mbind, Js_bind. unfold bind at 1. unfold try_catch.
    destruct (parse_list_params_pure q w) as [[[[cond srt] sel]|] ->]; [|discriminate].
    destruct (count_param (qp_count q)).
    + unfold User_countDocuments, mbind, Js_bind, bind, issue, get_world, lift, ret.
      cbn [users logged].
      destruct (match_users cond (users w)); cbn;
        [|destruct (is_named "CastError" _)]; discriminate.
    + unfold bind.
      destruct (User_exec _ (w)) as [[l|e] w1] eqn:E; cbn;
        [|destruct (is_named "CastError" e); discriminate].
      intros [= <-]. apply (User_exec_limited (users_query q cond srt sel) n w w1 l);
        [apply Hlim | exact Hn | exact E].
  - unfold get_tasks, mbind, Js_bind. unfold bind at 1. unfold try_catch.
    destruct (parse_list_params_pure q w) as [[[[cond srt] sel]|] ->]; [|discriminate].
    destruct (count_param (qp_count q)).
    + unfold Task_countDocuments, mbind, Js_bind, bind, issue, get_world, lift, ret.
      cbn [tasks logged].
      destruct (match_tasks cond (tasks w)); discriminate.
    + unfold bind.
      destruct (Task_exec _ (w)) as [[l|e] w1] eqn:E; cbn; [|discriminate].
      intros [= <-]. apply (Task_exec_limited (tasks_query q cond srt sel) n w w1 l);
        [apply Hlim | exact Hn | exact E].
Qed.

(** A filter that parses but that the store refuses: GET /users answers
    404 "User not found." when the error is a CastError and 500 with the
    message of the error otherwise; GET /tasks answers 500 with the
    message of the error in both cases. *)
Theorem refused_filter (w : World) (q : ListParams) (cond srt sel : Json) (e e' : JsError) :
  parse_list_params q w = (Ret (Some (cond, srt, sel)), w) ->
  match_users cond (users w) = Throw e ->
  match_tasks cond (tasks w) = Throw e' ->
  fst (get_users q w) =
    Ret (if is_named "CastError" e
         then response 404 "User not found." DEmpty
         else response 500 ("Server error: " +:+ err_message e) DEmpty) /\
  fst (get_tasks q w) =
    Ret (response 500 ("Server error: " +:+ err_message e') DEmpty).
Proof.
  intros Hparse Hu Ht. split.
  - unfold get_users, mbind, Js_bind. unfold bind at 1. unfold try_catch.
    rewrite Hparse.
    unfold User_countDocuments, User_exec, mbind, Js_bind, bind, issue, get_world, lift, ret.
    destruct (count_param (qp_count q)); cbn [users logged q_where];
      unfold users_query; rewrite ?build_query_where; rewrite Hu;
      destruct (is_named "CastError" e); reflexivity.
  - unfold get_tasks, mbind, Js_bind. unfold bind at 1. unfold try_catch.
    rewrite Hparse.
    unfold Task_countDocuments, Task_exec, mbind, Js_bind, bind, issue, get_world, lift, ret.
    destruct (count_param (qp_count q)); cbn [tasks logged q_where];
      unfold tasks_query; rewrite ?build_query_where; rewrite Ht; reflexivity.
Qed.

End Lists.

(* ===================================================================== *)
(** * Every request is answered *)
(* ===================================================================== *)

Section Answers.
Context {H : Host}.









End Answers.

(* ===================================================================== *)
(** * The statements at sample requests *)
(* ===================================================================== *)

#[local] Existing Instance tiny_host.

(** Ann, who holds one open and one completed task, is deleted. *)
Lemma delete_user_unassigns_pending_witness :
  exists w',
    delete_users_id uidA ann_two_tasks =
      (Ret (response 200 "User deleted! All associated tasks have been unassigned."
              (DUser None (uidA, mkUser "Ann" "ann@example.org" [tid1; tid2] 0))), w') /\
    tasks w' !! tid2 = Some (sample_task true EmptyString "unassigned").
Proof.
  destruct (delete_user_unassigns_pending ann_two_tasks uidA
              (mkUser "Ann" "ann@example.org" [tid1; tid2] 0))
    as (w' & Hrun & _ & _ & Htasks).
  - reflexivity.
  - reflexivity.
  - discriminate.
  - repeat constructor.
  - exists w'. split; [exact Hrun|]. rewrite Htasks. reflexivity.
Defined.

(** C1 as stated fails: Ann exists and her list is not empty, yet the
    answer is 500 (and Ann is gone). *)
Lemma delete_user_stray_entry_500 :
  users ann_stray_entry !! uidA = Some (mkUser "Ann" "ann@example.org" ["nope"] 0) /\
  fst (delete_users_id uidA ann_stray_entry) =
    Ret (response 500 "Server error: Cast to ObjectId failed for value nope" DEmpty) /\
  users (snd (delete_users_id uidA ann_stray_entry)) !! uidA = None.
Proof. vm_compute. repeat split; reflexivity. Qed.

(** The open task of Ann is deleted. *)
Lemma delete_task_pulls_pending_witness :
  exists w',
    delete_tasks_id tid1 ann_one_task =
      (Ret (response 200 "Task deleted!" (DTask None (tid1, sample_task false uidA "Ann"))), w') /\
    users w' !! uidA = Some (mkUser "Ann" "ann@example.org" [] 0).
Proof.
  destruct (delete_task_pulls_pending ann_one_task tid1 eq_refl) as [_ Hfound].
  destruct (Hfound (sample_task false uidA "Ann") eq_refl (or_intror eq_refl))
    as (w' & Hrun & _ & Husers & _).
  exists w'. split; [exact Hrun|]. rewrite Husers. reflexivity.
Defined.

(** C8 as stated fails: the Task exists, yet the answer is 500 (and the
    Task is gone). *)
Lemma delete_task_of_bob_500 :
  tasks task_of_bob !! tid1 = Some (sample_task false "bob" "Bob") /\
  fst (delete_tasks_id tid1 task_of_bob) =
    Ret (response 500 "Server error: Cast to ObjectId failed for value bob" DEmpty) /\
  tasks (snd (delete_tasks_id tid1 task_of_bob)) !! tid1 = None.
Proof. vm_compute. repeat split; reflexivity. Qed.

(** An open Task is created for Ann. *)
Lemma post_tasks_appends_when_pending_witness :
  users (snd (post_tasks (task_for_ann false) ann_one_task)) !! uidA =
    Some (mkUser "Ann" "ann@example.org" [tid1; oid_of_nat 0] 0) /\
  users (snd (post_tasks (task_for_ann true) ann_one_task)) = users ann_one_task.
Proof.
  split.
  - destruct (post_tasks (task_for_ann false) ann_one_task) as [o w'] eqn:Hrun.
    destruct o as [r|e]; [|vm_compute in Hrun; discriminate].
    destruct (post_tasks_appends_when_pending ann_one_task w' (task_for_ann false) r Hrun)
      as (_ & _ & Husers & _).
    + vm_compute in Hrun. injection Hrun as <- _. reflexivity.
    + cbn [snd]. rewrite Husers. reflexivity.
  - destruct (post_tasks (task_for_ann true) ann_one_task) as [o w'] eqn:Hrun.
    destruct o as [r|e]; [|vm_compute in Hrun; discriminate].
    destruct (post_tasks_appends_when_pending ann_one_task w' (task_for_ann true) r Hrun)
      as (_ & _ & Husers & _).
    + vm_compute in Hrun. injection Hrun as <- _. reflexivity.
    + cbn [snd]. rewrite Husers. reflexivity.
Defined.

(** A Task is created for "bob". *)
Lemma post_tasks_refused_push_witness :
  fst (post_tasks task_for_bob ann_one_task) = Ret (response 500 "Server error." DEmpty) /\
  tasks (snd (post_tasks task_for_bob ann_one_task)) !! oid_of_nat 0 =
    Some (mkTask "report" 1700000000000 EmptyString false "bob" "unassigned").
Proof.
  pose proof (post_tasks_refused_push ann_one_task
                (snd (Task_new ann_one_task))
                (snd (Task_save (task_of_body task_for_bob (oid_of_nat 0, default_task))
                        (snd (Task_new ann_one_task))))
                (logged (OpUserFindByIdAndUpdate "bob" (UPush (oid_of_nat 0)))
                   (snd (Task_save (task_of_body task_for_bob (oid_of_nat 0, default_task))
                           (snd (Task_new ann_one_task)))))
                task_for_bob (oid_of_nat 0, default_task) (CastError "bob")
                eq_refl eq_refl eq_refl eq_refl eq_refl eq_refl) as [Hrun Hstored].
  rewrite Hrun. split; [reflexivity|exact Hstored].
Defined.

(** C6 as stated fails: the save succeeds, the write to the User is
    refused, and the answer is 500, not 201. *)
Lemma post_tasks_for_bob_500 :
  fst (post_tasks task_for_bob ann_one_task) = Ret (response 500 "Server error." DEmpty) /\
  oplog (snd (post_tasks task_for_bob ann_one_task)) =
    [OpTaskSave (oid_of_nat 0, mkTask "report" 1700000000000 EmptyString false "bob" "unassigned");
     OpUserFindByIdAndUpdate "bob" (UPush (oid_of_nat 0))] /\
  tasks (snd (post_tasks task_for_bob ann_one_task)) !! oid_of_nat 0 =
    Some (mkTask "report" 1700000000000 EmptyString false "bob" "unassigned").
Proof. vm_compute. repeat split; reflexivity. Qed.

(** The open task of Ann is given to Bea: it leaves Ann's list and enters
    Bea's. *)
Lemma put_task_reconciles_witness :
  exists w',
    snd (put_tasks_id tid1 give_to_bea ann_one_task) = w' /\
    users w' !! uidA = Some (mkUser "Ann" "ann@example.org" [] 0) /\
    users w' !! uidB = Some (mkUser "Bea" "bea@example.org" [tid1] 0).
Proof.
  destruct (put_task_reconciles ann_one_task tid1 give_to_bea
              (sample_task false uidA "Ann") eq_refl eq_refl (or_intror eq_refl))
    as (r & w' & Hrun & _ & Husers & _).
  exists w'. rewrite Hrun. split; [reflexivity|]. rewrite Husers.
  split; reflexivity.
Defined.

(** C2 as stated fails: the task of "bob" is given to Bea and is not
    completed, so the policy adds it to Bea's list; the handler stops at the
    refused removal and Bea's list stays empty. *)
Lemma put_task_of_bob_skips_push :
  let w' := snd (put_tasks_id tid1 give_to_bea task_of_bob_and_bea) in
  tasks w' !! tid1 = Some (sample_task false uidB "Bea") /\
  reconcile_policy tid1 "bob" uidB false false = [Remove tid1 "bob"; Add tid1 uidB] /\
  oplog w' = [OpTaskFindById tid1 None; OpTaskFindByIdAndUpdate tid1 give_to_bea;
              OpUserFindByIdAndUpdate "bob" (UPull tid1)] /\
  users w' !! uidB = Some (mkUser "Bea" "bea@example.org" [] 0) /\
  apply_writes [Remove tid1 "bob"; Add tid1 uidB] (users task_of_bob_and_bea) !! uidB
    = Some (mkUser "Bea" "bea@example.org" [tid1] 0).
Proof. vm_compute. repeat split; reflexivity. Qed.

(** A request for a Task under "abc". *)
Lemma get_tasks_id_malformed_500_witness :
  get_tasks_id "abc" None (@empty_world tiny_host) =
    (Ret (response 500 "Server error: Cast to ObjectId failed for value abc" DEmpty),
     logged (OpTaskFindById "abc" None) empty_world).
Proof. apply (get_tasks_id_malformed_500 (H := tiny_host) empty_world "abc"). reflexivity. Defined.

(** The text "{bad json" as [where], with [count=true]. *)
Lemma list_rejects_unparsable_witness :
  let q := mkListParams (Some "{bad json") None None None None (Some "true") in
  fst (get_users q (@empty_world tiny_host)) =
    Ret (response 400
           "Bad Request: Invalid JSON in 'where', 'sort', or 'select' query parameter." DEmpty) /\
  oplog (snd (get_tasks q (@empty_world tiny_host))) = [].
Proof.
  cbn zeta.
  destruct (list_rejects_unparsable (H := tiny_host)
              (mkListParams (Some "{bad json") None None None None (Some "true"))
              empty_world) as [Hu Ht].
  - left. exists "{bad json". repeat split. discriminate.
  - rewrite Hu, Ht. split; reflexivity.
Defined.

(** C7 as stated fails: [where] is there and is no JSON text (it is
    empty), and the handler runs the query and answers 200. *)
Lemma list_empty_where_runs_query :
  qp_where (where_only EmptyString) = Some EmptyString /\
  JSON_parse (Host := tiny_host) EmptyString = None /\
  fst (get_users (where_only EmptyString) (@empty_world tiny_host)) =
    Ret (response 200 "OK" (DUsers (Some TEmptyObject) [])) /\
  oplog (snd (get_users (where_only EmptyString) (@empty_world tiny_host))) =
    [OpUserFind (mkQuery TEmptyObject (Some TEmptyObject) (Some TEmptyObject) None None)].
Proof. vm_compute. repeat split; reflexivity. Qed.

(** The limit "abc" on GET /tasks. *)
Lemma list_skip_and_limit_witness :
  q_limit (tasks_query (limit_only "abc") TEmptyObject TEmptyObject TEmptyObject) = None /\
  q_limit (tasks_query no_params TEmptyObject TEmptyObject TEmptyObject) = Some 100.
Proof.
  split.
  - apply (list_skip_and_limit (H := tiny_host) (limit_only "abc")
             TEmptyObject TEmptyObject TEmptyObject) with (s := "abc");
      [reflexivity | discriminate | reflexivity].
  - apply (list_skip_and_limit (H := tiny_host) no_params
             TEmptyObject TEmptyObject TEmptyObject). left. reflexivity.
Defined.

(** C5 as stated fails: with 101 tasks stored, GET /tasks with the limit
    "abc", which [parseInt] reads as no number, answers with 101 documents,
    while the default limit gives 100. *)
Lemma get_tasks_limit_abc_unbounded :
  parseInt "abc" = None /\
  documents (fst (get_tasks (limit_only "abc") (many_tasks 101))) = Some 101%nat /\
  documents (fst (get_tasks no_params (many_tasks 101))) = Some 100%nat.
Proof. vm_compute. repeat split; reflexivity. Qed.

(** Cy is created with a list that names no Task of the store. *)
Lemma post_user_keeps_pending_verbatim_witness :
  exists (id : string) (u : User),
    data (response 201 "User created!"
            (DUser None (oid_of_nat 0, mkUser "Cy" "cy@example.org" [tid1] 0)))
      = DUser (H := tiny_host) None (id, u) /\
    u_pendingTasks u = [tid1].
Proof.
  destruct (proj1 (post_user_keeps_pending_verbatim (H := tiny_host))
              empty_world (snd (post_users cy_with_pending empty_world))
              cy_with_pending [tid1]
              (response 201 "User created!"
                 (DUser None (oid_of_nat 0, mkUser "Cy" "cy@example.org" [tid1] 0)))
              eq_refl eq_refl eq_refl)
    as (id & u & Hdata & Hl & _).
  exists id, u. split; assumption.
Defined.

(* ===================================================================== *)
(** * Further statements at sample requests *)
(* ===================================================================== *)

(** In the state where Ann holds her open task, the mirror holds and the
    Users are stored under identifiers. *)
Lemma ann_one_task_mirror :
  mirror_invariant ann_one_task /\ user_ids_well_formed ann_one_task.
Proof.
  split.
  - intros uid u tid Hu. unfold ann_one_task in *. cbn [users tasks] in *.
    apply lookup_insert_Some in Hu as [[<- <-]|[Hne Hu]].
    + cbn [u_pendingTasks]. rewrite list_elem_of_singleton. split.
      * intros ->. eexists. split; [apply lookup_singleton_eq|]. split; reflexivity.
      * intros (t & Ht & _). apply lookup_singleton_Some in Ht as [<- _]. reflexivity.
    + apply lookup_singleton_Some in Hu as [<- <-]. cbn [u_pendingTasks]. split.
      * intros Hin. destruct (not_elem_of_nil _ Hin).
      * intros (t & Ht & Hass & _). apply lookup_singleton_Some in Ht as [_ <-].
        discriminate.
  - intros uid u Hu. unfold ann_one_task in Hu. cbn [users] in Hu.
    apply lookup_insert_Some in Hu as [[<- _]|[_ Hu]]; [reflexivity|].
    apply lookup_singleton_Some in Hu as [<- _]. reflexivity.
Qed.

Lemma post_users_missing_field_witness :
  post_users (mkUserBody (Some "Cy") None None) empty_world =
    (Ret (response 400 "Validation Error: 'name' and 'email' are required fields." DEmpty),
     empty_world).
Proof. apply post_users_missing_field. right. reflexivity. Defined.

(** A deadline of zero counts as missing. *)
Lemma post_tasks_missing_field_witness :
  post_tasks (mkTaskBody (Some "report") (Some 0) None None None None) empty_world =
    (Ret (response 400 "Validation Error: 'name' and 'deadline' are required fields." DEmpty),
     empty_world).
Proof. apply post_tasks_missing_field. right. reflexivity. Defined.

Lemma post_users_duplicate_email_witness :
  exists w',
    post_users (mkUserBody (Some "Other Ann") (Some "ann@example.org") None) ann_one_task =
      (Ret (response 400 "Email already exists." DEmpty), w') /\
    users w' = users ann_one_task /\ tasks w' = tasks ann_one_task.
Proof.
  apply (post_users_duplicate_email ann_one_task _ uidA
           (mkUser "Ann" "ann@example.org" [tid1] 0) "ann@example.org");
    [reflexivity | reflexivity | discriminate | reflexivity | reflexivity].
Defined.

Lemma get_by_id_unparsable_select_witness :
  fst (get_users_id "abc" (Some "{name:") empty_world) =
    Ret (response 400 "Bad Request: Invalid JSON in 'select' query parameter." DEmpty) /\
  oplog (snd (get_tasks_id "abc" (Some "{name:") empty_world)) = [].
Proof.
  destruct (get_by_id_unparsable_select empty_world "abc" (Some "{name:")) as [Hu Ht].
  - exists "{name:". repeat split. discriminate.
  - rewrite Hu, Ht. split; reflexivity.
Defined.

Lemma get_by_id_found_or_404_witness :
  fst (get_users_id uidA None ann_one_task) =
    Ret (response 200 "OK" (DUser None (uidA, mkUser "Ann" "ann@example.org" [tid1] 0))) /\
  fst (get_tasks_id uidA None ann_one_task) =
    Ret (response 404 "Task not found." DEmpty).
Proof.
  destruct (get_by_id_found_or_404 ann_one_task uidA eq_refl) as [Hu Ht].
  rewrite Hu, Ht. split; reflexivity.
Defined.

Lemma count_ignores_paging_witness :
  let q := mkListParams None None None None None (Some "true") in
  get_tasks (with_paging (Some "5") (Some "abc") q) (many_tasks 101) =
  get_tasks q (many_tasks 101).
Proof.
  cbn zeta.
  apply (count_ignores_paging (many_tasks 101)
           (mkListParams None None None None None (Some "true")) (Some "5") (Some "abc")).
  reflexivity.
Defined.


(** Ann asks for the email of Bea. *)
Lemma put_user_email_clash_witness :
  exists w',
    put_users_id uidA (mkUserBody None (Some "bea@example.org") None) ann_one_task =
      (Ret (response 400 "Email already exists." DEmpty), w') /\
    same_documents ann_one_task w'.
Proof.
  apply (put_user_email_clash ann_one_task uidA uidB _
           (mkUser "Ann" "ann@example.org" [tid1] 0)
           (mkUser "Bea" "bea@example.org" [] 0) "bea@example.org");
    [reflexivity | reflexivity | reflexivity | reflexivity | discriminate
    | reflexivity | reflexivity].
Defined.

Lemma put_user_refused_witness :
  put_users_id "abc" (mkUserBody (Some "Anna") None None) ann_one_task =
    (Ret (response 500 "Server error." DEmpty),
     logged (OpUserFindByIdAndUpdate "abc" (USet (mkUserBody (Some "Anna") None None)))
       ann_one_task) /\
  fst (put_users_id uidA (mkUserBody (Some EmptyString) None None) ann_one_task) =
    Ret (response 400 "Validation Error: Path `name` is required." DEmpty).
Proof.
  split.
  - apply (put_user_refused ann_one_task "abc"). reflexivity.
  - rewrite (proj2 (put_user_refused ann_one_task uidA
                      (mkUserBody (Some EmptyString) None None))
               (ValidationError "name") eq_refl eq_refl).
    reflexivity.
Defined.

(** Bea, who holds nothing, is deleted. *)
Lemma delete_user_without_cascade_witness :
  exists w',
    delete_users_id uidB ann_one_task =
      (Ret (response 200 "User deleted! All associated tasks have been unassigned."
              (DUser None (uidB, mkUser "Bea" "bea@example.org" [] 0))), w') /\
    oplog w' = [OpUserFindByIdAndDelete uidB].
Proof.
  destruct (delete_user_without_cascade ann_one_task uidB) as (_ & _ & Hempty).
  destruct (Hempty (mkUser "Bea" "bea@example.org" [] 0) eq_refl eq_refl eq_refl)
    as (w' & Hrun & _ & _ & Hlog).
  exists w'. split; [exact Hrun | exact Hlog].
Defined.

Lemma put_task_refused_witness :
  fst (put_tasks_id tid2 give_to_bea ann_one_task) =
    Ret (response 404 "Task not found." DEmpty) /\
  fst (put_tasks_id tid1 (mkTaskBody (Some EmptyString) None None None None None)
         ann_one_task) =
    Ret (response 400 "Validation Error: Path `name` is required." DEmpty).
Proof.
  destruct (put_task_refused ann_one_task tid2 give_to_bea) as (_ & Habsent & _).
  destruct (put_task_refused ann_one_task tid1
              (mkTaskBody (Some EmptyString) None None None None None))
    as (_ & _ & Hinvalid).
  rewrite (Habsent eq_refl eq_refl).
  rewrite (Hinvalid (sample_task false uidA "Ann") (ValidationError "name")
             eq_refl eq_refl eq_refl).
  split; reflexivity.
Defined.

(** A second open task is created for Ann. *)
Lemma post_tasks_keeps_mirror_witness :
  mirror_invariant (snd (post_tasks (task_for_ann false) ann_one_task)).
Proof.
  destruct (post_tasks (task_for_ann false) ann_one_task) as [o w'] eqn:Hrun.
  destruct o as [r|e]; [|vm_compute in Hrun; discriminate].
  apply (post_tasks_keeps_mirror ann_one_task w' (task_for_ann false) r
           (proj1 ann_one_task_mirror) (proj2 ann_one_task_mirror) Hrun).
  vm_compute in Hrun. injection Hrun as <- _. reflexivity.
Defined.

Lemma delete_task_keeps_mirror_witness :
  mirror_invariant (snd (delete_tasks_id tid1 ann_one_task)).
Proof.
  destruct (delete_tasks_id tid1 ann_one_task) as [o w'] eqn:Hrun.
  destruct o as [r|e]; [|vm_compute in Hrun; discriminate].
  apply (delete_task_keeps_mirror ann_one_task w' tid1 r
           (proj1 ann_one_task_mirror) (proj2 ann_one_task_mirror) Hrun).
  vm_compute in Hrun. injection Hrun as <- _. reflexivity.
Defined.

Lemma delete_user_keeps_mirror_witness :
  mirror_invariant (snd (delete_users_id uidA ann_one_task)).
Proof.
  destruct (delete_users_id uidA ann_one_task) as [o w'] eqn:Hrun.
  destruct o as [r|e]; [|vm_compute in Hrun; discriminate].
  apply (delete_user_keeps_mirror ann_one_task w' uidA r
           (proj1 ann_one_task_mirror) (proj2 ann_one_task_mirror) Hrun).
  vm_compute in Hrun. injection Hrun as <- _. reflexivity.
Defined.

Lemma put_task_keeps_mirror_witness :
  mirror_invariant (snd (put_tasks_id tid1 give_to_bea ann_one_task)).
Proof.
  destruct (put_tasks_id tid1 give_to_bea ann_one_task) as [o w'] eqn:Hrun.
  destruct o as [r|e]; [|vm_compute in Hrun; discriminate].
  apply (put_task_keeps_mirror ann_one_task w' tid1 give_to_bea r
           (proj1 ann_one_task_mirror) (proj2 ann_one_task_mirror) Hrun).
  vm_compute in Hrun. injection Hrun as <- _. reflexivity.
Defined.

Lemma create_then_delete_restores_witness :
  users (snd (delete_tasks_id (oid_of_nat 0)
                (snd (post_tasks (task_for_ann false) ann_one_task))))
    = users ann_one_task.
Proof.
  destruct (post_tasks (task_for_ann false) ann_one_task) as [o w1] eqn:Hrun.
  destruct o as [r|e]; [|vm_compute in Hrun; discriminate].
  apply (create_then_delete_restores ann_one_task w1 (task_for_ann false) r Hrun).
  - vm_compute in Hrun. injection Hrun as <- _. reflexivity.
  - intros uid u Hu Hin.
    apply (proj1 ann_one_task_mirror uid u _ Hu) in Hin as (t & Ht & _).
    vm_compute in Ht. discriminate.
Defined.

Lemma positive_limit_bounds_answer_witness :
  documents (fst (get_tasks (limit_only "7") (many_tasks 101))) = Some 7%nat /\
  (7 <= Z.to_nat 7)%nat.
Proof.
  assert (Hdocs : documents (fst (get_tasks (limit_only "7") (many_tasks 101))) = Some 7%nat)
    by (vm_compute; reflexivity).
  split; [exact Hdocs|].
  apply (positive_limit_bounds_answer (many_tasks 101) (limit_only "7") "7" 7 7
           eq_refl eq_refl eq_refl).
  exact Hdocs.
Defined.

(** The filter [true] parses and is refused by the store. *)
Lemma refused_filter_witness :
  fst (get_users (where_only "true") empty_world) =
    Ret (response 500 "Server error: Parameter must be an object" DEmpty) /\
  fst (get_tasks (where_only "true") empty_world) =
    Ret (response 500 "Server error: Parameter must be an object" DEmpty).
Proof.
  apply (refused_filter (H := tiny_host) empty_world (where_only "true") (TBool true) TEmptyObject
           TEmptyObject ObjectParameterError ObjectParameterError);
    reflexivity.
Defined.

Lemma created_document_is_served_witness :
  exists d : Doc User,
    fst (get_users_id (_id d) None (snd (post_users cy_with_pending empty_world))) =
      Ret (response 200 "OK" (DUser None d)).
Proof.
  destruct (proj1 created_document_is_served
              empty_world (snd (post_users cy_with_pending empty_world)) cy_with_pending
              (response 201 "User created!"
                 (DUser None (oid_of_nat 0, mkUser "Cy" "cy@example.org" [tid1] 0)))
              eq_refl eq_refl)
    as (d & _ & Hget).
  exists d. exact Hget.
Defined.

Lemma delete_twice_is_404_witness :
  fst (delete_tasks_id tid1 (snd (delete_tasks_id tid1 ann_one_task))) =
    Ret (response 404 "Task not found." DEmpty).
Proof.
  destruct (delete_tasks_id tid1 ann_one_task) as [o w'] eqn:Hrun.
  destruct o as [r|e]; [|vm_compute in Hrun; discriminate].
  assert (Hst : status r = 200) by (vm_compute in Hrun; injection Hrun as <- _; reflexivity).
  exact (proj1 (delete_twice_is_404 ann_one_task w' tid1 r Hst) Hrun).
Defined.
